(** * climlab.domain.field: the [Field] array type and [global_mean]

    A shallow embedding of [src/climlab/domain/field.py].

    - Python exceptions are values of [exn]; a call returns [result A].
    - A Python object that the code only reads attributes from (the domain,
      its [axes] mapping, an axis) is a record of optional attributes:
      an absent attribute is [None] and reading it raises [AttributeError].
    - A numpy array is its shape, its contents in C order and what its class
      adds to it: nothing for an exact [numpy.ndarray], the instance
      attribute [domain] for a [Field].
    - numpy calls [Field.__array_finalize__] whenever it makes a [Field]
      from an existing array; the operations of numpy that the module calls
      are modelled with that call, so they can raise what the hook raises.
    - The constructor and the propagation hook are polymorphic in the
      element type.  Where the code computes ([global_mean]) the contents
      are binary64 floats with their IEEE product and quotient; the cosine,
      the conversion to radians and the summation of numpy are parameters
      of the model. *)

From Stdlib Require Import PrimFloat Lia List String Arith.
From stdpp Require Import gmap strings.
Import ListNotations.

Local Open Scope string_scope.
Local Open Scope list_scope.
Local Open Scope nat_scope.

(** ** Python results and exceptions *)

Inductive exn : Type :=
| AttributeError (attr : string)
| KeyError (key : string)
| TypeError
| IndexError
| ValueError (msg : string).

Inductive result (A : Type) : Type :=
| Ok (a : A)
| Raise (e : exn).

Arguments Ok {A} a.
Arguments Raise {A} e.

Definition bind {A B : Type} (r : result A) (k : A -> result B) : result B :=
  match r with
  | Ok a => k a
  | Raise e => Raise e
  end.

(** [try: body  except: handler]: a bare [except] catches every exception. *)
Definition try_except {A : Type} (body : result A) (handler : exn -> result A)
  : result A :=
  match body with
  | Ok a => Ok a
  | Raise e => handler e
  end.

#[global] Instance result_ret : MRet result := fun A a => Ok a.
#[global] Instance result_bind : MBind result := fun A B k r => bind r k.

(** ** Domain objects (external collaborator, read through attributes) *)

(** An axis object; [points] is [None] when the object has no such
    attribute. *)
Record Axis : Type := mkAxis {
  points : option (list float)
}.

(** The value of a domain's [axes] attribute: a dict keyed by axis name, or
    some object that does not support subscripting. *)
Inductive axes_value : Type :=
| AxesDict (d : gmap string Axis)
| AxesOther.

(** A domain object.  [oid] is the identity of the Python object ([id(d)]):
    two domains with the same attributes and different [oid] are distinct
    objects, and a copy never has the [oid] of its original. *)
Record Domain : Type := mkDomain {
  oid : positive;
  dshape : option (list nat);
  axes : option axes_value
}.

(** A Python value passed where a domain is expected: [None] is Python's
    [None], [Some d] a reference to the object [d]. *)
Definition domain_ref : Type := option Domain.

(** [domain.shape] *)
Definition getattr_shape (domain : domain_ref) : result (list nat) :=
  match domain with
  | None => Raise (AttributeError "shape")
  | Some d =>
      match dshape d with
      | Some s => Ok s
      | None => Raise (AttributeError "shape")
      end
  end.

(** [domain.axes] *)
Definition getattr_axes (domain : domain_ref) : result axes_value :=
  match domain with
  | None => Raise (AttributeError "axes")
  | Some d =>
      match axes d with
      | Some a => Ok a
      | None => Raise (AttributeError "axes")
      end
  end.

(** [axes[key]] *)
Definition getitem_axes (a : axes_value) (key : string) : result Axis :=
  match a with
  | AxesDict d =>
      match d !! key with
      | Some ax => Ok ax
      | None => Raise (KeyError key)
      end
  | AxesOther => Raise TypeError
  end.

(** [axis.points] *)
Definition getattr_points (ax : Axis) : result (list float) :=
  match points ax with
  | Some p => Ok p
  | None => Raise (AttributeError "points")
  end.

(** ** Arrays *)

Inductive pyclass : Type :=
| ndarray_cls   (* numpy.ndarray *)
| Field_cls.    (* climlab Field, a subclass of numpy.ndarray *)

(** What an instance holds besides the array: an exact [numpy.ndarray] has
    no instance attributes; a [Field] has the attribute [domain] once it
    has been assigned: [FieldObj None] has no such attribute yet,
    [FieldObj (Some None)] holds Python's [None], [FieldObj (Some (Some d))]
    refers to [d]. *)
Inductive instance : Type :=
| Plain
| FieldObj (attr_domain : option domain_ref).

Record ndarray (T : Type) : Type := mk_ndarray {
  inst : instance;
  shape : list nat;
  data : list T
}.

Arguments mk_ndarray {T} inst shape data.
Arguments inst {T} n.
Arguments shape {T} n.
Arguments data {T} n.

(** [type(a)] *)
Definition cls {T : Type} (a : ndarray T) : pyclass :=
  match inst a with
  | Plain => ndarray_cls
  | FieldObj _ => Field_cls
  end.

(** The instance attribute [domain] of [a], when there is one. *)
Definition domain {T : Type} (a : ndarray T) : option domain_ref :=
  match inst a with
  | Plain => None
  | FieldObj v => v
  end.

(** Number of elements of an array of shape [s]. *)
Definition size (s : list nat) : nat := fold_right Nat.mul 1 s.

(** C-order position of a multi-index, and back. *)
Fixpoint ravel (s idx : list nat) : nat :=
  match s, idx with
  | _ :: s', i :: idx' => i * size s' + ravel s' idx'
  | _, _ => 0
  end.

Fixpoint unravel (s : list nat) (k : nat) : list nat :=
  match s with
  | [] => []
  | _ :: s' => (k / size s') :: unravel s' (k mod size s')
  end.

(** The elements of [d] at the positions [ks], in that order. *)
Definition gather {T : Type} (d : list T) (ks : list nat) : list T :=
  flat_map (fun k => match d !! k with
                     | Some x => [x]
                     | None => []
                     end) ks.

(** Broadcasting of two shapes, aligned on their last axes; the arguments
    of [broadcast_rev] are the reversed shapes. *)
Fixpoint broadcast_rev (s1 s2 : list nat) : option (list nat) :=
  match s1, s2 with
  | [], s => Some s
  | s, [] => Some s
  | a :: r1, b :: r2 =>
      match broadcast_rev r1 r2 with
      | None => None
      | Some rest =>
          if decide (a = b) then Some (a :: rest)
          else if decide (a = 1) then Some (b :: rest)
          else if decide (b = 1) then Some (a :: rest)
          else None
      end
  end.

Definition broadcast_shapes (s1 s2 : list nat) : option (list nat) :=
  match broadcast_rev (rev s1) (rev s2) with
  | Some r => Some (rev r)
  | None => None
  end.

(** The multi-index into an operand of shape [s] that a multi-index [idx]
    of the broadcast result reads: the last [length s] components, with 0
    along every axis of length 1. *)
Definition project (s idx : list nat) : list nat :=
  zip_with (fun d i => if d =? 1 then 0 else i) s
           (drop (length idx - length s) idx).

(** Bounds of [a[i:j]] on an axis of length [n], as [slice.indices] gives
    them for step 1; [None] is an omitted bound. *)
Definition clamp_index (n : nat) (i : Z) : nat :=
  if (i <? 0)%Z then Z.to_nat (Z.max (i + Z.of_nat n) 0)
  else Nat.min (Z.to_nat i) n.

Definition slice_start (n : nat) (i : option Z) : nat :=
  match i with
  | Some i => clamp_index n i
  | None => 0
  end.

Definition slice_stop (n : nat) (j : option Z) : nat :=
  match j with
  | Some j => clamp_index n j
  | None => n
  end.

(** The shapes that [np.atleast_1d] and [np.atleast_2d] give to an array
    of shape [s]. *)
Definition shape_atleast_1d (s : list nat) : list nat :=
  match s with
  | [] => [1]
  | _ => s
  end.

Definition shape_atleast_2d (s : list nat) : list nat :=
  match s with
  | [] => [1; 1]
  | [n] => [1; n]
  | _ => s
  end.

(** An array is well formed when it holds as many elements as its shape
    says. *)
Definition well_formed {T : Type} (a : ndarray T) : Prop :=
  length (data a) = size (shape a).

(** [obj.domain = value]: an instance of the exact class [numpy.ndarray]
    accepts no attribute. *)
Definition setattr_domain {T : Type} (obj : ndarray T) (value : domain_ref)
  : result (ndarray T) :=
  match inst obj with
  | FieldObj _ => Ok (mk_ndarray (FieldObj (Some value)) (shape obj) (data obj))
  | Plain => Raise (AttributeError "domain")
  end.

(** [getattr(obj, 'domain', None)] *)
Definition getattr_domain_default {T : Type} (obj : ndarray T) : domain_ref :=
  match domain obj with
  | Some v => v
  | None => None
  end.

(** [obj.domain] *)
Definition getattr_domain {T : Type} (obj : ndarray T) : result domain_ref :=
  match domain obj with
  | Some v => Ok v
  | None => Raise (AttributeError "domain")
  end.

(** [Field.__array_finalize__(self, obj)]; [obj = None] is Python's [None].
    The method mutates [self]: the result is [self] afterwards. *)
Definition __array_finalize__ {T : Type} (self : ndarray T)
  (obj : option (ndarray T)) : result (ndarray T) :=
  match obj with
  | None => Ok self
  | Some o => setattr_domain self (getattr_domain_default o)
  end.

(** ** The numpy operations the module calls *)

Module np.
Section engine.
Context {T : Type}.

(** A fresh instance of class [c], as [ndarray.__new__(c, ...)] leaves
    it. *)
Definition new_instance (c : pyclass) (s : list nat) (d : list T)
  : ndarray T :=
  match c with
  | Field_cls => mk_ndarray (FieldObj None) s d
  | ndarray_cls => mk_ndarray Plain s d
  end.

(** A new array of class [c] made by numpy from the existing array
    [parent] (view casting or new-from-template): numpy allocates the
    instance and calls the class's [__array_finalize__] with [parent];
    [ndarray] itself has no hook to run. *)
Definition derived (c : pyclass) (parent : ndarray T) (s : list nat)
  (d : list T) : result (ndarray T) :=
  match c with
  | Field_cls => __array_finalize__ (new_instance Field_cls s d) (Some parent)
  | ndarray_cls => Ok (new_instance ndarray_cls s d)
  end.

(** [a.view(c)] *)
Definition view (c : pyclass) (a : ndarray T) : result (ndarray T) :=
  derived c a (shape a) (data a).

(** [a.reshape(s)] for a shape [s] with as many elements. *)
Definition reshape (a : ndarray T) (s : list nat) : result (ndarray T) :=
  derived (cls a) a s (data a).

(** [np.atleast_1d(a)]: [asanyarray] keeps the class; a 0-d array is
    reshaped to [(1,)], any other is returned as it is. *)
Definition atleast_1d (a : ndarray T) : result (ndarray T) :=
  match shape a with
  | [] => reshape a [1]
  | _ => Ok a
  end.

(** [np.atleast_2d(a)]: 0-d becomes [(1, 1)], 1-d of length [n] becomes
    [(1, n)] (through [a[newaxis, :]]). *)
Definition atleast_2d (a : ndarray T) : result (ndarray T) :=
  match shape a with
  | [] => reshape a [1; 1]
  | [n] => reshape a [1; n]
  | _ => Ok a
  end.

(** [np.transpose(a)]: the axes are reversed; the element at multi-index
    [idx] of the result is the element at [rev idx] of [a]. *)
Definition transpose_data (s : list nat) (d : list T) : list T :=
  gather d (map (fun k => ravel s (rev (unravel (rev s) k)))
                (seq 0 (size s))).

Definition transpose (a : ndarray T) : result (ndarray T) :=
  derived (cls a) a (rev (shape a)) (transpose_data (shape a) (data a)).

(** [a.squeeze()]: the axes of length 1 are removed. *)
Definition squeeze (a : ndarray T) : result (ndarray T) :=
  derived (cls a) a (List.filter (fun n => negb (n =? 1)) (shape a)) (data a).

(** [a[i:j]]: a slice along the first axis; a 0-d array cannot be
    indexed. *)
Definition getitem_slice (a : ndarray T) (i j : option Z)
  : result (ndarray T) :=
  match shape a with
  | [] => Raise IndexError
  | n :: rest =>
      let start := slice_start n i in
      let stop := slice_stop n j in
      let len := stop - start in
      derived (cls a) a (len :: rest)
        (take (len * size rest) (drop (start * size rest) (data a)))
  end.

(** What [a[i]] evaluates to for an integer [i]: an array scalar when [a]
    has one axis, the sub-array along the first axis otherwise. *)
Inductive item : Type :=
| Scalar (x : T)
| Subarray (sub : ndarray T).

(** [a[i]] for an integer [i]; a negative [i] counts from the end. *)
Definition getitem_int (a : ndarray T) (i : Z) : result item :=
  match shape a with
  | [] => Raise IndexError
  | n :: rest =>
      let k := if (i <? 0)%Z then (i + Z.of_nat n)%Z else i in
      if decide (0 <= k < Z.of_nat n)%Z then
        match rest with
        | [] =>
            match data a !! Z.to_nat k with
            | Some x => Ok (Scalar x)
            | None => Raise IndexError
            end
        | _ :: _ =>
            sub ← derived (cls a) a rest
                    (take (size rest)
                          (drop (Z.to_nat k * size rest) (data a)));
            Ok (Subarray sub)
        end
      else Raise IndexError
  end.

(** [np.zeros_like(a)]: same class and shape as [a], created from the
    template [a]. *)
Definition zeros_like (zero : T) (a : ndarray T) : result (ndarray T) :=
  derived (cls a) a (shape a) (repeat zero (size (shape a))).

(** A unary ufunc applied element by element. *)
Definition ufunc1 (f : T -> T) (a : ndarray T) : result (ndarray T) :=
  derived (cls a) a (shape a) (map f (data a)).

(** The operand whose [__array_wrap__] wraps the output of a binary ufunc:
    the first operand that is not a plain ndarray. *)
Definition wrapping_operand (a b : ndarray T) : option (ndarray T) :=
  match cls a, cls b with
  | Field_cls, _ => Some a
  | ndarray_cls, Field_cls => Some b
  | ndarray_cls, ndarray_cls => None
  end.

Definition broadcast_data (f : T -> T -> T) (sa : list nat) (da : list T)
  (sb : list nat) (db : list T) (s : list nat) : list T :=
  flat_map (fun k =>
              let idx := unravel s k in
              match da !! ravel sa (project sa idx),
                    db !! ravel sb (project sb idx) with
              | Some x, Some y => [f x y]
              | _, _ => []
              end) (seq 0 (size s)).

Definition broadcast_msg : string :=
  "operands could not be broadcast together".

(** A binary ufunc ([a + b], [a * b], ...): the operands are broadcast
    against each other, and the output is view-cast to the class of the
    wrapping operand, which is the [obj] the hook receives. *)
Definition ufunc2 (f : T -> T -> T) (a b : ndarray T)
  : result (ndarray T) :=
  match broadcast_shapes (shape a) (shape b) with
  | None => Raise (ValueError broadcast_msg)
  | Some s =>
      let d := broadcast_data f (shape a) (data a) (shape b) (data b) s in
      match wrapping_operand a b with
      | Some w => derived Field_cls w s d
      | None => Ok (new_instance ndarray_cls s d)
      end
  end.

End engine.
End np.

(** ** The constructor *)

Definition shape_mismatch_msg : string :=
  "input_array and domain have different shapes.".

(** [Field.__new__(cls, input_array, domain=None)] with [cls] the class
    [Field]. *)
Definition __new__ {T : Type} (input_array : ndarray T) (domain : domain_ref)
  : result (ndarray T) :=
  promoted ← np.atleast_1d input_array;
  obj ← np.view Field_cls promoted;
  dom_shape ← getattr_shape domain;
  if decide (shape obj = dom_shape) then
    setattr_domain obj domain
  else
    try_except
      (promoted ← np.atleast_2d obj;
       obj ← np.transpose promoted;
       dom_shape ← getattr_shape domain;
       if decide (shape obj = dom_shape) then
         setattr_domain obj domain
       else
         Ok obj)
      (fun _ => Raise (ValueError shape_mismatch_msg)).

(** The call [Field(input_array, domain)]. *)
Definition Field {T : Type} (input_array : ndarray T) (domain : domain_ref)
  : result (ndarray T) :=
  __new__ input_array domain.

(** A plain ndarray built from its shape and contents. *)
Definition array {T : Type} (s : list nat) (d : list T) : ndarray T :=
  mk_ndarray Plain s d.

(** A [Field] with the given attribute value. *)
Definition field_of {T : Type} (dom : domain_ref) (s : list nat) (d : list T)
  : ndarray T :=
  mk_ndarray (FieldObj (Some dom)) s d.

(** ** The global mean *)

(** What numpy computes on float64 values outside IEEE arithmetic: the
    cosine and the conversion from degrees to radians of one value (from
    the C library), and the value [np.sum] gives for an array with these
    contents (numpy adds them in an order of its own).  They are
    parameters: every theorem below holds whatever these functions are. *)
Class Float64Lib : Type := mkFloat64Lib {
  np_cos : float -> float;
  np_deg2rad : float -> float;
  np_add_reduce : list float -> float
}.

Module npf.
Section float_ops.
Context {lib : Float64Lib}.

(** [np.deg2rad(lat)] on a sequence of numbers: a 1-d array of the
    angles in radians. *)
Definition deg2rad (lat : list float) : result (ndarray float) :=
  np.ufunc1 np_deg2rad (array [length lat] lat).

(** [np.cos(a)] *)
Definition cos (a : ndarray float) : result (ndarray float) :=
  np.ufunc1 np_cos a.

(** [a * b]: the IEEE product, element by element. *)
Definition multiply (a b : ndarray float) : result (ndarray float) :=
  np.ufunc2 PrimFloat.mul a b.

(** [a / b]: the IEEE quotient, element by element; a zero divisor gives
    an infinity or [nan], it does not raise. *)
Definition true_divide (a b : ndarray float) : result (ndarray float) :=
  np.ufunc2 PrimFloat.div a b.

(** [np.sum(a)] over all the axes: an array of rank 0 of the class of
    [a], made from [a]; for a plain array this stands for the array scalar
    numpy returns. *)
Definition sum (a : ndarray float) : result (ndarray float) :=
  np.derived (cls a) a [] [np_add_reduce (data a)].

End float_ops.
End npf.

Definition no_latitude_msg : string := "No latitude axis in input field.".

(** [_global_mean(array, lat_radians)] *)
Definition _global_mean {lib : Float64Lib} (array lat_radians : ndarray float)
  : result (ndarray float) :=
  weights ← npf.cos lat_radians;
  weighted ← npf.multiply array weights;
  total ← npf.sum weighted;
  weights' ← npf.cos lat_radians;
  norm ← npf.sum weights';
  npf.true_divide total norm.

(** [field.domain.axes['lat'].points] *)
Definition lat_points (field : ndarray float) : result (list float) :=
  d ← getattr_domain field;
  a ← getattr_axes d;
  ax ← getitem_axes a "lat";
  getattr_points ax.

(** [global_mean(field)] *)
Definition global_mean {lib : Float64Lib} (field : ndarray float)
  : result (ndarray float) :=
  lat ← try_except (lat_points field)
                   (fun _ => Raise (ValueError no_latitude_msg));
  lat_radians ← npf.deg2rad lat;
  squeezed ← np.squeeze field;
  _global_mean squeezed lat_radians.

(** The cosine weights of the latitudes [lat], given in degrees. *)
Definition cos_weights {lib : Float64Lib} (lat : list float) : list float :=
  map np_cos (map np_deg2rad lat).

(** The mean of section 4.2 in the spec's words: the sum of the values
    times the cosines of the latitudes in radians, over the sum of those
    cosines. *)
Definition weighted_mean_spec {lib : Float64Lib} (values lat : list float)
  : float :=
  (np_add_reduce (zip_with PrimFloat.mul values (cos_weights lat))
   / np_add_reduce (cos_weights lat))%float.

(** A field lies along the latitude axis alone when, once its axes of
    length 1 are removed, one axis as long as the latitude vector is left
    (none at all when that vector has a single point). *)
Definition along_latitude (s : list nat) (n : nat) : Prop :=
  let squeezed := List.filter (fun k => negb (k =? 1)) s in
  squeezed = [n] \/ (squeezed = [] /\ n = 1).

(** ** Sample objects *)

(** The float64 values the examples need from the library, so that they
    can be evaluated: the cosine of 0 and of pi/4 as the C library returns
    them ([nan] marks an argument the table does not cover), the
    conversion to radians as the product with pi/180, and the sum of a
    short array, which numpy adds from left to right. *)
Definition cos_table (x : float) : float :=
  if PrimFloat.eqb x 0 then 1%float
  else if PrimFloat.eqb (PrimFloat.abs x) 0x1.921fb54442d18p-1 then
    0x1.6a09e667f3bcdp-1%float
  else nan.

Definition deg2rad_product (x : float) : float :=
  (x * (0x1.921fb54442d18p+1 / 180))%float.

Definition sum_left_to_right (l : list float) : float :=
  fold_left PrimFloat.add l 0%float.

Definition sample_lib : Float64Lib :=
  mkFloat64Lib cos_table deg2rad_product sum_left_to_right.

Definition grid (i : positive) (s : list nat) : Domain :=
  mkDomain i (Some s) None.

Definition lat_grid (i : positive) (lat : list float) : Domain :=
  mkDomain i (Some [length lat])
           (Some (AxesDict {[ "lat" := mkAxis (Some lat) ]})).

(** One array-producing operation of numpy on [a] that hands [a] to the
    hook of the result: [r] is a slice, a sub-array, a reshaped or
    transposed view, a template copy of [a], or the output of a ufunc whose
    wrapping operand is [a]. *)
Inductive derives {T : Type} : ndarray T -> ndarray T -> Prop :=
| derives_slice a i j r :
    np.getitem_slice a i j = Ok r -> derives a r
| derives_subarray a i r :
    np.getitem_int a i = Ok (np.Subarray r) -> derives a r
| derives_zeros_like a zero r :
    np.zeros_like zero a = Ok r -> derives a r
| derives_view a r :
    np.view Field_cls a = Ok r -> derives a r
| derives_atleast_1d a r :
    np.atleast_1d a = Ok r -> derives a r
| derives_atleast_2d a r :
    np.atleast_2d a = Ok r -> derives a r
| derives_transpose a r :
    np.transpose a = Ok r -> derives a r
| derives_squeeze a r :
    np.squeeze a = Ok r -> derives a r
| derives_ufunc1 a f r :
    np.ufunc1 f a = Ok r -> derives a r
| derives_ufunc2_left a op b r :
    np.ufunc2 op a b = Ok r -> derives a r
| derives_ufunc2_right a op b r :
    cls b = ndarray_cls -> np.ufunc2 op b a = Ok r -> derives a r.

(** Every component of the multi-index [idx] is inside the shape [s]. *)
Definition in_bounds (idx s : list nat) : Prop := Forall2 lt idx s.

(** The position in [a] that position [k] of [np.transpose(a)] reads, for
    [a] of shape [s]. *)
Definition transpose_index (s : list nat) (k : nat) : nat :=
  ravel s (rev (unravel (rev s) k)).

Definition sample_field : ndarray nat :=
  field_of (Some (grid 1 [2; 3])) [2; 3] [1; 2; 3; 4; 5; 6].

(** A domain of pressure levels by latitudes would have both axes; this
    one has three latitudes and two columns. *)
Definition lat_by_2_grid (i : positive) : Domain :=
  mkDomain i (Some [3; 2])
           (Some (AxesDict {[ "lat" := mkAxis (Some [-45; 0; 45]%float) ]})).

Example Field_match :
  Field (array [3] [10; 20; 30]) (Some (grid 1 [3]))
  = Ok (field_of (Some (grid 1 [3])) [3] [10; 20; 30]).
Proof. reflexivity. Qed.

Example Field_scalar :
  Field (array [] [7]) (Some (grid 1 [1]))
  = Ok (field_of (Some (grid 1 [1])) [1] [7]).
Proof. reflexivity. Qed.

Example Field_transposed :
  Field (array [2; 3] [1; 2; 3; 4; 5; 6]) (Some (grid 1 [3; 2]))
  = Ok (field_of (Some (grid 1 [3; 2])) [3; 2] [1; 4; 2; 5; 3; 6]).
Proof. reflexivity. Qed.

Example Field_column :
  Field (array [3] [10; 20; 30]) (Some (grid 1 [3; 1]))
  = Ok (field_of (Some (grid 1 [3; 1])) [3; 1] [10; 20; 30]).
Proof. reflexivity. Qed.

Example Field_rank3_transposed :
  Field (array [2; 1; 3] [1; 2; 3; 4; 5; 6]) (Some (grid 1 [3; 1; 2]))
  = Ok (field_of (Some (grid 1 [3; 1; 2])) [3; 1; 2] [1; 4; 2; 5; 3; 6]).
Proof. reflexivity. Qed.

Example slice_keeps_domain :
  np.getitem_slice (field_of (Some (grid 1 [3])) [3] [10; 20; 30])
    None (Some 1%Z)
  = Ok (field_of (Some (grid 1 [3])) [1] [10]).
Proof. reflexivity. Qed.

Example slice_negative_bounds :
  np.getitem_slice (array [4; 2] [1; 2; 3; 4; 5; 6; 7; 8])
    (Some (-3)%Z) (Some (-1)%Z)
  = Ok (array [2; 2] [3; 4; 5; 6]).
Proof. reflexivity. Qed.

Example add_broadcast :
  np.ufunc2 Nat.add (array [2; 3] [1; 2; 3; 4; 5; 6]) (array [3] [10; 20; 30])
  = Ok (array [2; 3] [11; 22; 33; 14; 25; 36]).
Proof. reflexivity. Qed.

Example add_broadcast_column :
  np.ufunc2 Nat.add (array [2; 1] [1; 2]) (array [3] [10; 20; 30])
  = Ok (array [2; 3] [11; 21; 31; 12; 22; 32]).
Proof. reflexivity. Qed.

Example add_broadcast_fails :
  np.ufunc2 Nat.add (array [2; 3] [1; 2; 3; 4; 5; 6]) (array [2] [10; 20])
  = Raise (ValueError np.broadcast_msg).
Proof. reflexivity. Qed.

Example squeeze_singletons :
  np.squeeze (array [1; 3; 1] [1; 2; 3]) = Ok (array [3] [1; 2; 3]).
Proof. reflexivity. Qed.

Example subarray_keeps_domain :
  np.getitem_int sample_field (-1)%Z
  = Ok (np.Subarray (field_of (Some (grid 1 [2; 3])) [3] [4; 5; 6])).
Proof. reflexivity. Qed.

Example zeros_like_keeps_domain :
  np.zeros_like 0 sample_field
  = Ok (field_of (Some (grid 1 [2; 3])) [2; 3] [0; 0; 0; 0; 0; 0]).
Proof. reflexivity. Qed.

Example add_fields_keeps_first_domain :
  np.ufunc2 Nat.add sample_field
    (field_of (Some (grid 2 [3])) [3] [10; 20; 30])
  = Ok (field_of (Some (grid 1 [2; 3])) [2; 3] [11; 22; 33; 14; 25; 36]).
Proof. reflexivity. Qed.

Example global_mean_plain_array :
  global_mean (lib := sample_lib) (array [3] [1; 2; 3]%float)
  = Raise (ValueError no_latitude_msg).
Proof. reflexivity. Qed.

Example global_mean_None_domain :
  global_mean (lib := sample_lib) (field_of None [3] [1; 2; 3]%float)
  = Raise (ValueError no_latitude_msg).
Proof. reflexivity. Qed.

Example global_mean_no_axes :
  global_mean (lib := sample_lib)
    (field_of (Some (grid 1 [3])) [3] [1; 2; 3]%float)
  = Raise (ValueError no_latitude_msg).
Proof. reflexivity. Qed.

Example global_mean_ones :
  global_mean (lib := sample_lib)
    (field_of (Some (lat_grid 1 [-45; 0; 45]%float)) [3] [1; 1; 1]%float)
  = Ok (field_of (Some (lat_grid 1 [-45; 0; 45]%float)) [] [1%float]).
Proof. reflexivity. Qed.

Example global_mean_square_field :
  global_mean (lib := sample_lib)
    (field_of (Some (lat_grid 1 [0; 0]%float)) [2; 2] [1; 1; 1; 1]%float)
  = Ok (field_of (Some (lat_grid 1 [0; 0]%float)) [] [2%float]).
Proof. reflexivity. Qed.

(** ** Facts about the array model *)

Section array_facts.
Context {T : Type}.
Implicit Types (a : ndarray T) (d : list T) (s : list nat).

Lemma gather_cons d k ks :
  gather d (k :: ks)
  = match d !! k with Some x => [x] | None => [] end ++ gather d ks.
Proof. reflexivity. Qed.

(** When every position is inside [d], [gather] reads exactly one element
    per position. *)
Lemma gather_lookup d ks i :
  Forall (fun k => k < length d) ks ->
  gather d ks !! i = ks !! i ≫= (d !!.).
Proof.
  intros Hin. revert i. induction Hin as [|k ks Hk _ IH]; intros i.
  - reflexivity.
  - rewrite gather_cons.
    destruct (lookup_lt_is_Some_2 d k Hk) as [x Hx]. rewrite Hx.
    destruct i as [|i]; simpl.
    + symmetry. exact Hx.
    + apply IH.
Qed.

Lemma gather_seq d : gather d (seq 0 (length d)) = d.
Proof.
  apply list_eq. intros i. rewrite gather_lookup.
  - destruct (decide (i < length d)) as [Hlt|Hge].
    + rewrite lookup_seq_lt by exact Hlt. reflexivity.
    + rewrite lookup_seq_ge by lia. simpl.
      symmetry. apply lookup_ge_None. lia.
  - apply Forall_forall. intros k Hk. apply elem_of_seq in Hk. lia.
Qed.

(** Position read by the transpose of a matrix. *)
Lemma transpose_index_2d m n k :
  ravel [m; n] (rev (unravel (rev [m; n]) k)) = (k mod m) * n + k / m.
Proof.
  cbn [rev app unravel ravel size fold_right].
  rewrite !Nat.mul_1_r, !Nat.div_1_r. lia.
Qed.

Lemma transpose_index_2d_at m n i j :
  i < m -> (j * m + i) mod m * n + (j * m + i) / m = i * n + j.
Proof.
  intros Hi.
  assert (Hm : m <> 0) by lia.
  rewrite (Nat.add_comm (j * m) i).
  rewrite Nat.Div0.mod_add, Nat.div_add by exact Hm.
  rewrite Nat.mod_small, Nat.div_small by exact Hi. lia.
Qed.

Lemma transpose_index_2d_bound m n k :
  k < m * n -> (k mod m) * n + k / m < m * n.
Proof.
  intros Hk.
  assert (Hm : m <> 0) by (intros ->; lia).
  pose proof (Nat.mod_upper_bound k m Hm) as Hmod.
  assert (Hdiv : k / m < n) by (apply Nat.Div0.div_lt_upper_bound; lia).
  nia.
Qed.

(** Element [(j, i)] of the transpose of a well-formed [m] by [n] matrix
    is element [(i, j)] of the matrix. *)
Lemma transpose_data_2d m n d i j :
  length d = m * n -> i < m -> j < n ->
  np.transpose_data [m; n] d !! (j * m + i) = d !! (i * n + j).
Proof.
  intros Hlen Hi Hj. unfold np.transpose_data.
  assert (Hsize : size [m; n] = m * n) by (simpl; lia).
  rewrite Hsize, gather_lookup.
  - rewrite list_lookup_fmap, lookup_seq_lt by nia.
    cbn [fmap option_fmap option_map mbind option_bind Nat.add].
    rewrite transpose_index_2d, transpose_index_2d_at by exact Hi.
    reflexivity.
  - apply Forall_forall. intros p Hp.
    apply list_elem_of_In, in_map_iff in Hp as (k & <- & Hk).
    apply in_seq in Hk.
    rewrite transpose_index_2d, Hlen.
    apply transpose_index_2d_bound. lia.
Qed.

(** Transposing a single row leaves the contents in their order. *)
Lemma transpose_data_row n d :
  length d = n -> np.transpose_data [1; n] d = d.
Proof.
  intros Hlen. unfold np.transpose_data.
  assert (Hsize : size [1; n] = n) by (simpl; lia).
  rewrite Hsize.
  rewrite (map_ext _ (fun k => k)).
  - rewrite map_id, <- Hlen. apply gather_seq.
  - intros k. rewrite transpose_index_2d.
    rewrite Nat.mod_1_r, Nat.div_1_r. lia.
Qed.

(** numpy's making of a derived array never fails: the hook assigns to a
    fresh [Field], which accepts the attribute, and copies the attribute of
    the parent whatever the two shapes are. *)
Lemma derived_Field a s d :
  np.derived Field_cls a s d = Ok (field_of (getattr_domain_default a) s d).
Proof. reflexivity. Qed.

Lemma derived_ndarray a s d :
  np.derived ndarray_cls a s d = Ok (array s d).
Proof. reflexivity. Qed.

Lemma derived_same_class a s d :
  np.derived (cls a) a s d
  = Ok (mk_ndarray match inst a with
                   | Plain => Plain
                   | FieldObj _ => FieldObj (Some (getattr_domain_default a))
                   end s d).
Proof. destruct a as [[|v] sh da]; reflexivity. Qed.

Lemma atleast_1d_ok a :
  exists b, np.atleast_1d a = Ok b
            /\ shape b = shape_atleast_1d (shape a)
            /\ data b = data a
            /\ getattr_domain_default b = getattr_domain_default a.
Proof.
  destruct a as [[|v] [|n sh] da]; eexists; (split; [reflexivity|]);
    repeat split; reflexivity.
Qed.

(** The two outcomes of the constructor's fallback, and the outcome of its
    fast path, for a domain that has a [shape]. *)
Lemma new_cases (A : ndarray T) (dom : domain_ref) s :
  getattr_shape dom = Ok s ->
  __new__ A dom
  = if decide (shape_atleast_1d (shape A) = s) then
      Ok (field_of dom (shape_atleast_1d (shape A)) (data A))
    else if decide (rev (shape_atleast_2d (shape A)) = s) then
      Ok (field_of dom (rev (shape_atleast_2d (shape A)))
            (np.transpose_data (shape_atleast_2d (shape A)) (data A)))
    else
      Ok (field_of (getattr_domain_default A)
            (rev (shape_atleast_2d (shape A)))
            (np.transpose_data (shape_atleast_2d (shape A)) (data A))).
Proof.
  intros Hs. unfold __new__.
  destruct A as [[|v] [|n [|n' sh]] da];
    cbn -[decide rev np.transpose_data]; rewrite Hs;
    cbn -[decide rev np.transpose_data];
    repeat (case_decide; cbn -[decide rev np.transpose_data]);
    rewrite ?Hs; cbn -[decide rev np.transpose_data];
    repeat (case_decide; cbn -[decide rev np.transpose_data]);
    try reflexivity; try congruence.
Qed.

End array_facts.

(** ** The constructor against a domain that has a shape *)

(** C3. When the shape of the input promoted to rank >= 1 is the shape of
    the domain, [Field(A, D)] succeeds; the result is a [Field] with the
    shape and the contents of the promoted input, and its attribute
    [domain] is the reference [D] that was passed (same [oid], no copy). *)
Theorem Field_shape_match {T : Type} (A P : ndarray T) (D : Domain) :
  np.atleast_1d A = Ok P ->
  dshape D = Some (shape P) ->
  Field A (Some D) = Ok (field_of (Some D) (shape P) (data P))
  /\ data P = data A.
Proof.
  intros HP HD.
  destruct (atleast_1d_ok A) as (b & Hb & Hshape & Hdata & _).
  rewrite HP in Hb. injection Hb as <-.
  split; [|exact Hdata].
  unfold Field. rewrite (new_cases A (Some D) (shape P)).
  - rewrite Hshape, Hdata. rewrite decide_True by reflexivity. reflexivity.
  - unfold getattr_shape. rewrite HD. reflexivity.
Qed.

Lemma Field_shape_match_witness :
  Field (array [2; 2] [1; 2; 3; 4]) (Some (grid 7 [2; 2]))
  = Ok (field_of (Some (grid 7 [2; 2])) [2; 2] [1; 2; 3; 4])
  /\ [1; 2; 3; 4] = [1; 2; 3; 4].
Proof.
  apply (Field_shape_match (array [2; 2] [1; 2; 3; 4])
           (array [2; 2] [1; 2; 3; 4]) (grid 7 [2; 2])); reflexivity.
Defined.

(** C4. For an [m] by [n] input whose shape is the reverse of the domain's
    and differs from it, [Field(A, D)] succeeds and returns the transpose:
    a [Field] of shape [(n, m)] holding the contents of [np.transpose(A)],
    so that element [(j, i)] of the result is element [(i, j)] of [A]; its
    attribute [domain] is the reference [D]. *)
Theorem Field_transpose_fallback {T : Type} (A : ndarray T) (D : Domain)
  (s : list nat) (m n : nat) :
  shape A = [m; n] ->
  dshape D = Some s ->
  shape A = rev s ->
  shape A <> s ->
  exists r t,
    Field A (Some D) = Ok r
    /\ np.transpose A = Ok t
    /\ inst r = FieldObj (Some (Some D))
    /\ shape r = s /\ shape r = shape t /\ data r = data t
    /\ (well_formed A ->
        forall i j, i < m -> j < n ->
          data r !! ravel s [j; i] = data A !! ravel (shape A) [i; j]).
Proof.
  intros HA HD Hrev Hne.
  assert (Hs : s = [n; m]).
  { rewrite <- (rev_involutive s), <- Hrev, HA. reflexivity. }
  subst s.
  exists (field_of (Some D) [n; m] (np.transpose_data [m; n] (data A))).
  eexists. split; [|split].
  - unfold Field. rewrite (new_cases A (Some D) [n; m]).
    + rewrite HA. cbn [shape_atleast_1d shape_atleast_2d].
      rewrite decide_False by (rewrite <- HA; exact Hne).
      rewrite decide_True by reflexivity. reflexivity.
    + unfold getattr_shape. rewrite HD. reflexivity.
  - unfold np.transpose. rewrite derived_same_class. reflexivity.
  - cbn [inst shape data field_of]. rewrite HA.
    repeat split; try reflexivity.
    intros Hwf i j Hi Hj.
    unfold well_formed in Hwf. rewrite HA in Hwf.
    cbn [ravel size fold_right] in *.
    replace (j * (m * 1) + (i * 1 + 0)) with (j * m + i) by lia.
    replace (i * (n * 1) + (j * 1 + 0)) with (i * n + j) by lia.
    apply transpose_data_2d; [lia | exact Hi | exact Hj].
Qed.

Lemma Field_transpose_fallback_witness :
  exists r t,
    Field (array [2; 3] [1; 2; 3; 4; 5; 6]) (Some (grid 7 [3; 2])) = Ok r
    /\ np.transpose (array [2; 3] [1; 2; 3; 4; 5; 6]) = Ok t
    /\ inst r = FieldObj (Some (Some (grid 7 [3; 2])))
    /\ shape r = [3; 2] /\ shape r = shape t /\ data r = data t
    /\ (well_formed (array [2; 3] [1; 2; 3; 4; 5; 6]) ->
        forall i j, i < 2 -> j < 3 ->
          data r !! ravel [3; 2] [j; i]
          = [1; 2; 3; 4; 5; 6] !! ravel [2; 3] [i; j]).
Proof.
  apply (Field_transpose_fallback (array [2; 3] [1; 2; 3; 4; 5; 6])
           (grid 7 [3; 2]) [3; 2] 2 3);
    [reflexivity | reflexivity | reflexivity | discriminate].
Defined.

(** C10. A rank-1 input of length [n] against a column domain of shape
    [(n, 1)]: the input is promoted to [(1, n)] and transposed, and
    [Field(A, D)] returns a [Field] of shape [(n, 1)] whose attribute
    [domain] is the reference [D]; a well-formed input keeps its contents
    in their order.  ([n = 1] is not excluded: the same holds there.) *)
Theorem Field_column_domain {T : Type} (A : ndarray T) (D : Domain) (n : nat) :
  shape A = [n] ->
  dshape D = Some [n; 1] ->
  exists v p t r,
    np.view Field_cls A = Ok v
    /\ np.atleast_2d v = Ok p /\ shape p = [1; n]
    /\ np.transpose p = Ok t /\ shape t = [n; 1]
    /\ Field A (Some D) = Ok r
    /\ inst r = FieldObj (Some (Some D))
    /\ shape r = [n; 1]
    /\ data r = data t
    /\ (well_formed A -> data r = data A).
Proof.
  intros HA HD.
  exists (field_of (getattr_domain_default A) [n] (data A)).
  exists (field_of (getattr_domain_default A) [1; n] (data A)).
  exists (field_of (getattr_domain_default A) [n; 1]
            (np.transpose_data [1; n] (data A))).
  exists (field_of (Some D) [n; 1] (np.transpose_data [1; n] (data A))).
  split; [unfold np.view; rewrite derived_Field, HA; reflexivity|].
  split; [reflexivity|]. split; [reflexivity|].
  split; [reflexivity|]. split; [reflexivity|].
  split.
  - unfold Field. rewrite (new_cases A (Some D) [n; 1]).
    + rewrite HA. cbn [shape_atleast_1d shape_atleast_2d].
      rewrite decide_False by discriminate.
      rewrite decide_True by reflexivity. reflexivity.
    + unfold getattr_shape. rewrite HD. reflexivity.
  - repeat split; try reflexivity.
    intros Hwf. cbn [data field_of].
    apply transpose_data_row.
    unfold well_formed in Hwf. rewrite HA in Hwf. simpl in Hwf. lia.
Qed.

Lemma Field_column_domain_witness :
  exists v p t r,
    np.view Field_cls (array [3] [10; 20; 30]) = Ok v
    /\ np.atleast_2d v = Ok p /\ shape p = [1; 3]
    /\ np.transpose p = Ok t /\ shape t = [3; 1]
    /\ Field (array [3] [10; 20; 30]) (Some (grid 7 [3; 1])) = Ok r
    /\ inst r = FieldObj (Some (Some (grid 7 [3; 1])))
    /\ shape r = [3; 1]
    /\ data r = data t
    /\ (well_formed (array [3] [10; 20; 30]) -> data r = [10; 20; 30]).
Proof.
  apply (Field_column_domain (array [3] [10; 20; 30]) (grid 7 [3; 1]) 3);
    reflexivity.
Defined.

(** C9 (as the code has it). Against a domain that has a [shape],
    [Field(A, D)] never raises: the promotion to rank 2 and the transpose
    of the fallback always return, so the [except] clause is never entered.
    When neither the promoted shape nor the transposed shape is the
    domain's, the constructor returns the transposed array of rank >= 2,
    and its attribute [domain] is what view casting left there: the
    attribute of the input when the input is a [Field] that has one,
    [None] otherwise, so [None] for every plain array. *)
Theorem Field_never_raises {T : Type} (A : ndarray T) (D : Domain)
  (s : list nat) :
  dshape D = Some s ->
  (exists r, Field A (Some D) = Ok r)
  /\ (forall a : ndarray T, exists p t,
        np.atleast_2d a = Ok p /\ np.transpose p = Ok t)
  /\ (shape_atleast_1d (shape A) <> s ->
      rev (shape_atleast_2d (shape A)) <> s ->
      exists r,
        Field A (Some D) = Ok r
        /\ cls r = Field_cls
        /\ shape r = rev (shape_atleast_2d (shape A))
        /\ 2 <= length (shape r)
        /\ data r = np.transpose_data (shape_atleast_2d (shape A)) (data A)
        /\ domain r = Some (getattr_domain_default A)
        /\ (cls A = ndarray_cls -> domain r = Some None)).
Proof.
  intros HD.
  assert (Hs : getattr_shape (Some D) = Ok s).
  { unfold getattr_shape. rewrite HD. reflexivity. }
  split; [|split].
  - unfold Field. rewrite (new_cases A (Some D) s Hs).
    repeat case_decide; eexists; reflexivity.
  - intros a. unfold np.atleast_2d, np.reshape, np.transpose.
    destruct (shape a) as [|k [|k' sh]];
      rewrite ?derived_same_class; do 2 eexists; split; try reflexivity;
      rewrite derived_same_class; reflexivity.
  - intros H1 H2. unfold Field. rewrite (new_cases A (Some D) s Hs).
    rewrite decide_False by exact H1. rewrite decide_False by exact H2.
    eexists. split; [reflexivity|].
    cbn [cls inst shape data domain field_of].
    repeat split.
    + rewrite length_rev.
      destruct (shape A) as [|k [|k' sh]]; simpl; lia.
    + intros Hc. unfold getattr_domain_default, domain.
      unfold cls in Hc. destruct (inst A); [reflexivity | discriminate].
Qed.

Lemma Field_never_raises_witness :
  (exists r, Field (array [3] [1; 2; 3]) (Some (grid 7 [5])) = Ok r)
  /\ (forall a : ndarray nat, exists p t,
        np.atleast_2d a = Ok p /\ np.transpose p = Ok t)
  /\ (shape_atleast_1d [3] <> [5] ->
      rev (shape_atleast_2d [3]) <> [5] ->
      exists r,
        Field (array [3] [1; 2; 3]) (Some (grid 7 [5])) = Ok r
        /\ cls r = Field_cls
        /\ shape r = rev (shape_atleast_2d [3])
        /\ 2 <= length (shape r)
        /\ data r = np.transpose_data (shape_atleast_2d [3]) [1; 2; 3]
        /\ domain r = Some None
        /\ (ndarray_cls = ndarray_cls -> domain r = Some None)).
Proof.
  apply (Field_never_raises (array [3] [1; 2; 3]) (grid 7 [5]) [5]).
  reflexivity.
Defined.

(** C9 as stated fails when the input is itself a [Field]: [f] is built
    against a domain of shape [(3,)], and [Field(f, D)] against a domain
    [D] of shape [(5,)] matches neither way, returns normally, and the
    result refers to the domain of [f]: its attribute is not [None]. *)
Lemma Field_mismatch_keeps_input_domain :
  exists f r,
    Field (array [3] [1; 2; 3]) (Some (grid 1 [3])) = Ok f
    /\ shape_atleast_1d (shape f) <> [5]
    /\ rev (shape_atleast_2d (shape f)) <> [5]
    /\ Field f (Some (grid 2 [5])) = Ok r
    /\ shape r = [3; 1]
    /\ domain r = Some (Some (grid 1 [3]))
    /\ domain r <> Some None.
Proof.
  exists (field_of (Some (grid 1 [3])) [3] [1; 2; 3]).
  exists (field_of (Some (grid 1 [3])) [3; 1] [1; 2; 3]).
  repeat split; try reflexivity; discriminate.
Qed.

(** C1 at a concrete input.  A plain array of shape [(3,)] against a domain
    of shape [(5,)]: neither the promoted shape [(3,)] nor the transposed
    shape [(3, 1)] is the domain's, and the constructor returns a [Field]
    of shape [(3, 1)] whose [domain] is [None]; no [ValueError] is
    raised. *)
Theorem Field_double_mismatch_returns :
  shape_atleast_1d (shape (array [3] [1; 2; 3])) <> [5]
  /\ rev (shape_atleast_2d (shape (array [3] [1; 2; 3]))) <> [5]
  /\ Field (array [3] [1; 2; 3]) (Some (grid 1 [5]))
     = Ok (field_of None [3; 1] [1; 2; 3])
  /\ Field (array [3] [1; 2; 3]) (Some (grid 1 [5]))
     <> Raise (ValueError shape_mismatch_msg).
Proof. repeat split; try reflexivity; discriminate. Qed.

(** C2 on the code.  With [domain] equal to [None] the constructor reads
    [domain.shape] before anything else is decided, outside the [try]
    block: every call [Field(A, None)] raises [AttributeError]. *)
Theorem Field_None_domain_raises {T : Type} (A : ndarray T) :
  Field A None = Raise (AttributeError "shape").
Proof.
  unfold Field, __new__.
  destruct (atleast_1d_ok A) as (b & Hb & _). rewrite Hb.
  cbn [mbind result_bind bind]. unfold np.view. rewrite derived_Field.
  reflexivity.
Qed.

(** ** Propagation of the domain to derived arrays *)

(** C5 (as the code has it). Every array that numpy derives from a
    [Field] [f] by handing [f] to the hook is a [Field] whose attribute
    [domain] is [getattr(f, 'domain', None)]: the very reference [f] holds,
    or [None] when [f] has none.  This holds for a slice [f[i:j]], for the
    sub-array [f[i]] of a field of rank >= 2, for [np.zeros_like(f)], and
    for a binary operation whose wrapping operand is [f]: [f] first, or [f]
    second after a plain array.  When the first operand [g] is itself a
    [Field], the result carries the domain of [g], whatever [f] holds.  No
    shape is compared anywhere: the slice and the sub-array always exist
    for a field that has an axis, and the sub-array, of lower rank than
    [f], still carries the domain of [f]. *)
Theorem derived_arrays_keep_domain {T : Type} (f : ndarray T) :
  cls f = Field_cls ->
  (forall i j r, np.getitem_slice f i j = Ok r ->
     cls r = Field_cls /\ domain r = Some (getattr_domain_default f))
  /\ (forall i j, shape f <> [] -> exists r, np.getitem_slice f i j = Ok r)
  /\ (forall n rest i,
        shape f = n :: rest -> rest <> [] -> (0 <= i < Z.of_nat n)%Z ->
        exists sub,
          np.getitem_int f i = Ok (np.Subarray sub)
          /\ shape sub = rest
          /\ length (shape sub) < length (shape f)
          /\ cls sub = Field_cls
          /\ domain sub = Some (getattr_domain_default f))
  /\ (forall zero, exists r,
        np.zeros_like zero f = Ok r
        /\ shape r = shape f
        /\ cls r = Field_cls
        /\ domain r = Some (getattr_domain_default f))
  /\ (forall op g r, np.ufunc2 op f g = Ok r ->
        cls r = Field_cls /\ domain r = Some (getattr_domain_default f))
  /\ (forall op g r, cls g = ndarray_cls -> np.ufunc2 op g f = Ok r ->
        cls r = Field_cls /\ domain r = Some (getattr_domain_default f))
  /\ (forall op g r, cls g = Field_cls -> np.ufunc2 op g f = Ok r ->
        cls r = Field_cls /\ domain r = Some (getattr_domain_default g)).
Proof.
  intros Hc.
  destruct f as [[|v] sh d]; [discriminate Hc|]. clear Hc.
  set (f := mk_ndarray (FieldObj v) sh d).
  assert (Hslice : forall i j r, np.getitem_slice f i j = Ok r ->
            cls r = Field_cls /\ domain r = Some (getattr_domain_default f)).
  { intros i j r Hr. unfold np.getitem_slice in Hr. simpl shape in Hr.
    destruct sh; [discriminate Hr|]. injection Hr as <-.
    split; reflexivity. }
  assert (Hleft : forall op g r, np.ufunc2 op f g = Ok r ->
            cls r = Field_cls /\ domain r = Some (getattr_domain_default f)).
  { intros op g r Hr. unfold np.ufunc2 in Hr.
    destruct (broadcast_shapes (shape f) (shape g)); [|discriminate Hr].
    injection Hr as <-. split; reflexivity. }
  assert (Hright : forall op g r, cls g = ndarray_cls ->
            np.ufunc2 op g f = Ok r ->
            cls r = Field_cls /\ domain r = Some (getattr_domain_default f)).
  { intros op g r Hg Hr. unfold np.ufunc2, np.wrapping_operand in Hr.
    rewrite Hg in Hr.
    destruct (broadcast_shapes (shape g) (shape f)); [|discriminate Hr].
    injection Hr as <-. split; reflexivity. }
  split; [exact Hslice|]. split; [|split; [|split; [|split; [|split]]]].
  - intros i j Hsh. unfold np.getitem_slice. simpl shape.
    destruct sh; [contradiction|]. eexists. reflexivity.
  - intros n rest i Hsh Hrest Hi. simpl in Hsh. subst sh.
    unfold np.getitem_int. simpl shape.
    assert (Hneg : (i <? 0)%Z = false) by (apply Z.ltb_ge; lia).
    rewrite Hneg. rewrite decide_True by exact Hi.
    destruct rest as [|n' rest]; [contradiction|].
    eexists. split; [reflexivity|].
    repeat split. simpl. lia.
  - intros zero. eexists. repeat split.
  - exact Hleft.
  - exact Hright.
  - intros op g r Hg Hr. unfold np.ufunc2, np.wrapping_operand in Hr.
    rewrite Hg in Hr.
    destruct (broadcast_shapes (shape g) (shape f)); [|discriminate Hr].
    injection Hr as <-. split; reflexivity.
Qed.

Lemma derived_arrays_keep_domain_witness :
  (forall i j r, np.getitem_slice sample_field i j = Ok r ->
     cls r = Field_cls /\ domain r = Some (Some (grid 1 [2; 3])))
  /\ (forall i j, shape sample_field <> [] ->
        exists r, np.getitem_slice sample_field i j = Ok r)
  /\ (forall n rest i,
        shape sample_field = n :: rest -> rest <> [] ->
        (0 <= i < Z.of_nat n)%Z ->
        exists sub,
          np.getitem_int sample_field i = Ok (np.Subarray sub)
          /\ shape sub = rest
          /\ length (shape sub) < length (shape sample_field)
          /\ cls sub = Field_cls
          /\ domain sub = Some (Some (grid 1 [2; 3])))
  /\ (forall zero, exists r,
        np.zeros_like zero sample_field = Ok r
        /\ shape r = shape sample_field
        /\ cls r = Field_cls
        /\ domain r = Some (Some (grid 1 [2; 3])))
  /\ (forall op g r, np.ufunc2 op sample_field g = Ok r ->
        cls r = Field_cls /\ domain r = Some (Some (grid 1 [2; 3])))
  /\ (forall op g r, cls g = ndarray_cls ->
        np.ufunc2 op g sample_field = Ok r ->
        cls r = Field_cls /\ domain r = Some (Some (grid 1 [2; 3])))
  /\ (forall op (g r : ndarray nat), cls g = Field_cls ->
        np.ufunc2 op g sample_field = Ok r ->
        cls r = Field_cls /\ domain r = Some (getattr_domain_default g)).
Proof. apply (derived_arrays_keep_domain sample_field). reflexivity. Defined.

(** C5 as stated fails for arithmetic between two Fields when [f] is the
    second operand: [g + f], with [g] a [Field] over another domain, is
    derived from [f] by arithmetic between Fields, and it refers to the
    domain of [g], not to the domain of [f]. *)
Lemma sum_of_fields_keeps_left_domain :
  let g := field_of (Some (grid 2 [3])) [3] [10; 20; 30] in
  cls g = Field_cls
  /\ cls sample_field = Field_cls
  /\ np.ufunc2 Nat.add g sample_field
     = Ok (field_of (Some (grid 2 [3])) [2; 3] [11; 22; 33; 14; 25; 36])
  /\ domain (field_of (Some (grid 2 [3])) [2; 3] [11; 22; 33; 14; 25; 36])
     <> Some (getattr_domain_default sample_field).
Proof. repeat split; discriminate. Qed.

(** ** The global mean *)

Section broadcast_facts.

(** A binary ufunc on two operands read at positions that all exist. *)
Lemma flat_map_pairs {T : Type} (f : T -> T -> T) (da db : list T)
  (p q : nat -> nat) (ks : list nat) :
  Forall (fun k => p k < length da /\ q k < length db) ks ->
  flat_map (fun k => match da !! p k, db !! q k with
                     | Some x, Some y => [f x y]
                     | _, _ => []
                     end) ks
  = zip_with f (gather da (map p ks)) (gather db (map q ks)).
Proof.
  induction 1 as [|k ks [Hp Hq] _ IH]; [reflexivity|].
  cbn [flat_map map]. rewrite !gather_cons.
  destruct (lookup_lt_is_Some_2 da (p k) Hp) as [x Hx].
  destruct (lookup_lt_is_Some_2 db (q k) Hq) as [y Hy].
  rewrite Hx, Hy, IH. reflexivity.
Qed.

(** Position read in a vector of length [n] by the product with a vector
    of the same length. *)
Lemma vector_position n k :
  k < n -> ravel [n] (project [n] (unravel [n] k)) = k.
Proof.
  intros Hk. cbn [unravel ravel size fold_right project length Nat.sub drop
                  zip_with].
  rewrite Nat.div_1_r.
  destruct (n =? 1) eqn:Hn.
  - apply Nat.eqb_eq in Hn. lia.
  - lia.
Qed.

Lemma broadcast_data_vector {T : Type} (f : T -> T -> T) (da db : list T) n :
  length da = n -> length db = n ->
  np.broadcast_data f [n] da [n] db [n] = zip_with f da db.
Proof.
  intros Ha Hb. unfold np.broadcast_data.
  assert (Hsize : size [n] = n) by (simpl; lia).
  rewrite Hsize.
  rewrite (flat_map_pairs f da db
             (fun k => ravel [n] (project [n] (unravel [n] k)))
             (fun k => ravel [n] (project [n] (unravel [n] k)))).
  - rewrite (map_ext_in _ (fun k => k)).
    + rewrite map_id. rewrite <- Ha at 1. rewrite <- Hb.
      rewrite !gather_seq. reflexivity.
    + intros k Hk. apply in_seq in Hk. apply vector_position. lia.
  - apply Forall_forall. intros k Hk. apply elem_of_seq in Hk.
    rewrite vector_position by lia. lia.
Qed.

Lemma broadcast_shapes_vector n : broadcast_shapes [n] [n] = Some [n].
Proof.
  unfold broadcast_shapes. cbn [rev app broadcast_rev].
  rewrite decide_True by reflexivity. reflexivity.
Qed.

Lemma along_latitude_vector n : along_latitude [n] n.
Proof.
  unfold along_latitude. cbn [List.filter].
  destruct (n =? 1) eqn:Hn; cbn [negb].
  - right. apply Nat.eqb_eq in Hn. split; [reflexivity | exact Hn].
  - left. reflexivity.
Qed.

End broadcast_facts.

Section global_mean_facts.
Context {lib : Float64Lib}.

(** When the lookup succeeds the field is a [Field] that refers to a
    domain. *)
Lemma lat_points_Field (field : ndarray float) lat :
  lat_points field = Ok lat ->
  exists D, inst field = FieldObj (Some (Some D)).
Proof.
  unfold lat_points, getattr_domain, domain.
  destruct (inst field) as [|[[D|]|]]; try discriminate.
  intros _. exists D. reflexivity.
Qed.

(** The quotient of two arrays of rank 0. *)
Lemma true_divide_rank0 (v : domain_ref) (x y : float) :
  npf.true_divide (field_of v [] [x]) (array [] [y])
  = Ok (field_of v [] [(x / y)%float]).
Proof. reflexivity. Qed.

(** What [global_mean] computes once the latitudes are found. *)
Lemma global_mean_found (field : ndarray float) (lat : list float) :
  lat_points field = Ok lat ->
  global_mean field
  = match broadcast_shapes
            (List.filter (fun k => negb (k =? 1)) (shape field))
            [length lat] with
    | None => Raise (ValueError np.broadcast_msg)
    | Some s =>
        Ok (field_of (getattr_domain_default field) []
              [(np_add_reduce
                  (np.broadcast_data PrimFloat.mul
                     (List.filter (fun k => negb (k =? 1)%nat) (shape field))
                     (data field) [length lat] (cos_weights lat) s)
                / np_add_reduce (cos_weights lat))%float])
    end.
Proof.
  intros Hlat. destruct (lat_points_Field field lat Hlat) as [D HD].
  unfold global_mean. rewrite Hlat.
  destruct field as [i sh d]. cbn [inst] in HD. subst i.
  cbn -[broadcast_shapes np.broadcast_data List.filter npf.true_divide].
  unfold npf.multiply, np.ufunc2.
  cbn -[broadcast_shapes np.broadcast_data List.filter npf.true_divide].
  destruct (broadcast_shapes _ _); [|reflexivity].
  cbn -[broadcast_shapes np.broadcast_data List.filter npf.true_divide].
  apply true_divide_rank0.
Qed.

Lemma cos_weights_length lat : length (cos_weights lat) = length lat.
Proof. unfold cos_weights. rewrite !length_map. reflexivity. Qed.

(** For a field along the latitude axis alone, the code computes the
    weighted mean of the spec. *)
Lemma global_mean_along_latitude (field : ndarray float) (lat : list float) :
  lat_points field = Ok lat ->
  length (data field) = length lat ->
  along_latitude (shape field) (length lat) ->
  global_mean field
  = Ok (field_of (getattr_domain_default field) []
          [weighted_mean_spec (data field) lat]).
Proof.
  intros Hlat Hlen Hshape.
  rewrite (global_mean_found field lat Hlat).
  unfold weighted_mean_spec.
  destruct Hshape as [Hs | [Hs Hn]]; rewrite Hs.
  - rewrite broadcast_shapes_vector, broadcast_data_vector;
      [reflexivity | exact Hlen | apply cos_weights_length].
  - pose proof (cos_weights_length lat) as Hw.
    rewrite Hn in *.
    destruct (cos_weights lat) as [|w [|w' ws]]; try discriminate Hw.
    destruct (data field) as [|x [|x' d]]; try discriminate Hlen.
    reflexivity.
Qed.


(** After a successful lookup the only error left is numpy's own, on
    operands that do not broadcast. *)
Lemma global_mean_after_lookup (field : ndarray float) (lat : list float) :
  lat_points field = Ok lat ->
  global_mean field = Raise (ValueError np.broadcast_msg)
  \/ exists x, global_mean field = Ok x.
Proof.
  intros Hlat. rewrite (global_mean_found field lat Hlat).
  destruct (broadcast_shapes _ _); [right; eexists; reflexivity | left].
  reflexivity.
Qed.

Lemma global_mean_lookup_failed (field : ndarray float) (e : exn) :
  lat_points field = Raise e ->
  global_mean field = Raise (ValueError no_latitude_msg).
Proof. intros Hlat. unfold global_mean. rewrite Hlat. reflexivity. Qed.

End global_mean_facts.

(** C6 (as the code has it). When [field.domain.axes['lat'].points] is
    the vector [lat], [global_mean] squeezes the field and broadcasts it
    against the cosines of the latitudes in radians.  When the two shapes
    broadcast, it returns a [Field] of rank 0 that refers to the domain of
    the field and holds the float64 quotient of the sum of the products by
    the sum of the cosines; when they do not, it raises numpy's
    [ValueError].  For a field along the latitude axis alone the value is
    the weighted mean of the spec,
    [sum_i v_i cos(lat_i) / sum_i cos(lat_i)]. *)
Theorem global_mean_weighted_mean {lib : Float64Lib} (field : ndarray float)
  (lat : list float) :
  lat_points field = Ok lat ->
  (forall s,
     broadcast_shapes (List.filter (fun k => negb (k =? 1)) (shape field))
                      [length lat] = Some s ->
     global_mean field
     = Ok (field_of (getattr_domain_default field) []
             [(np_add_reduce
                 (np.broadcast_data PrimFloat.mul
                    (List.filter (fun k => negb (k =? 1)%nat) (shape field))
                    (data field) [length lat]
                    (map np_cos (map np_deg2rad lat)) s)
               / np_add_reduce (map np_cos (map np_deg2rad lat)))%float]))
  /\ (broadcast_shapes (List.filter (fun k => negb (k =? 1)%nat) (shape field))
                       [length lat] = None ->
      global_mean field = Raise (ValueError np.broadcast_msg))
  /\ (length (data field) = length lat ->
      along_latitude (shape field) (length lat) ->
      global_mean field
      = Ok (field_of (getattr_domain_default field) []
              [(np_add_reduce
                  (zip_with PrimFloat.mul (data field)
                     (map np_cos (map np_deg2rad lat)))
                / np_add_reduce (map np_cos (map np_deg2rad lat)))%float])).
Proof.
  intros Hlat. split; [|split].
  - intros s Hs. rewrite (global_mean_found field lat Hlat), Hs. reflexivity.
  - intros Hs. rewrite (global_mean_found field lat Hlat), Hs. reflexivity.
  - intros Hlen Hshape.
    exact (global_mean_along_latitude field lat Hlat Hlen Hshape).
Qed.

Lemma global_mean_weighted_mean_witness :
  global_mean (lib := sample_lib)
    (field_of (Some (lat_grid 1 [-45; 0; 45]%float)) [3] [1; 2; 3]%float)
  = Ok (field_of (Some (lat_grid 1 [-45; 0; 45]%float)) []
          [(sum_left_to_right
              (zip_with PrimFloat.mul [1; 2; 3]%float
                 (map cos_table (map deg2rad_product [-45; 0; 45]%float)))
            / sum_left_to_right
                (map cos_table (map deg2rad_product [-45; 0; 45]%float)))
           %float]).
Proof.
  apply (global_mean_weighted_mean (lib := sample_lib)
           (field_of (Some (lat_grid 1 [-45; 0; 45]%float)) [3]
              [1; 2; 3]%float)
           [-45; 0; 45]%float).
  - reflexivity.
  - reflexivity.
  - left. reflexivity.
Defined.

(** C6 as stated fails for a field with a second axis: a [Field] of shape
    [(3, 2)] over a domain of that shape with three latitudes has its
    latitudes found, and [global_mean] raises numpy's [ValueError] instead
    of returning a value. *)
Lemma global_mean_two_axes_raises :
  Field (array [3; 2] [1; 2; 3; 4; 5; 6]%float) (Some (lat_by_2_grid 1))
  = Ok (field_of (Some (lat_by_2_grid 1)) [3; 2] [1; 2; 3; 4; 5; 6]%float)
  /\ lat_points
       (field_of (Some (lat_by_2_grid 1)) [3; 2] [1; 2; 3; 4; 5; 6]%float)
     = Ok [-45; 0; 45]%float
  /\ global_mean (lib := sample_lib)
       (field_of (Some (lat_by_2_grid 1)) [3; 2] [1; 2; 3; 4; 5; 6]%float)
     = Raise (ValueError np.broadcast_msg).
Proof. repeat split. Qed.

(** C7. [global_mean] raises the [ValueError] whose message is
    ["No latitude axis in input field."] exactly when the lookup
    [field.domain.axes['lat'].points] raises, whatever it raises: the field
    has no attribute [domain], the attribute is [None], the domain has no
    [axes], [axes] cannot be subscripted, it has no key ['lat'], or the
    axis has no [points].  The message carries the text
    [No latitude axis in input field] and ends with a full stop. *)
Theorem global_mean_no_latitude {lib : Float64Lib} (field : ndarray float) :
  (global_mean field = Raise (ValueError no_latitude_msg)
   <-> exists e, lat_points field = Raise e)
  /\ ((exists e, lat_points field = Raise e)
      <-> (domain field = None
           \/ domain field = Some None
           \/ exists D, domain field = Some (Some D)
                /\ (axes D = None
                    \/ axes D = Some AxesOther
                    \/ exists m, axes D = Some (AxesDict m)
                         /\ (m !! "lat" = None
                             \/ exists ax, m !! "lat" = Some ax
                                  /\ points ax = None))))
  /\ no_latitude_msg = ("No latitude axis in input field" ++ ".")%string
  /\ forall e, lat_points field = Raise e ->
       exists what, e = AttributeError what \/ e = KeyError what
                    \/ e = TypeError.
Proof.
  split; [|split; [|split]].
  - split.
    + intros Hg. destruct (lat_points field) as [lat|e] eqn:Hlat.
      * destruct (global_mean_after_lookup field lat Hlat) as [Hb|[x Hx]];
          rewrite Hg in *; discriminate.
      * exists e. reflexivity.
    + intros [e He]. exact (global_mean_lookup_failed field e He).
  - unfold lat_points, getattr_domain. split.
    + intros [e He].
      destruct (domain field) as [[D|]|]; [|right; left; reflexivity
                                           |left; reflexivity].
      right. right. exists D. split; [reflexivity|].
      cbn [mbind result_bind bind getattr_axes] in He.
      destruct (axes D) as [[m|]|]; [|right; left; reflexivity
                                     |left; reflexivity].
      right. right. exists m. split; [reflexivity|].
      cbn [mbind result_bind bind getitem_axes] in He.
      destruct (m !! "lat") as [ax|]; [|left; reflexivity].
      right. exists ax. split; [reflexivity|].
      cbn [mbind result_bind bind] in He. unfold getattr_points in He.
      destruct (points ax); [discriminate He | reflexivity].
    + intros [H | [H | (D & H & HD)]]; rewrite H;
        [eexists; reflexivity | eexists; reflexivity |].
      cbn [mbind result_bind bind getattr_axes].
      destruct HD as [HD | [HD | (m & HD & Hm)]]; rewrite HD;
        [eexists; reflexivity | eexists; reflexivity |].
      cbn [mbind result_bind bind getitem_axes].
      destruct Hm as [Hm | (ax & Hm & Hp)]; rewrite Hm;
        [eexists; reflexivity |].
      cbn [mbind result_bind bind]. unfold getattr_points. rewrite Hp.
      eexists; reflexivity.
  - reflexivity.
  - intros e He. unfold lat_points, getattr_domain in He.
    destruct (domain field) as [[D|]|];
      cbn [mbind result_bind bind getattr_axes] in He;
      try (injection He as <-; eexists; left; reflexivity).
    destruct (axes D) as [[m|]|];
      cbn [mbind result_bind bind getitem_axes] in He.
    + destruct (m !! "lat") as [ax|];
        cbn [mbind result_bind bind] in He.
      * unfold getattr_points in He. destruct (points ax);
          [discriminate He | injection He as <-; eexists; left; reflexivity].
      * injection He as <-. eexists; right; left; reflexivity.
    + injection He as <-. exists "". right; right; reflexivity.
    + injection He as <-. eexists; left; reflexivity.
Qed.




(** ** Multi-indices and the transpose, for any rank *)

Section index_facts.

Lemma size_app s1 s2 : size (s1 ++ s2) = size s1 * size s2.
Proof.
  induction s1 as [|n s1 IH]; simpl.
  - lia.
  - fold (size (s1 ++ s2)). fold (size s1). rewrite IH. lia.
Qed.

Lemma size_rev s : size (rev s) = size s.
Proof.
  induction s as [|n s IH]; [reflexivity|].
  cbn [rev]. rewrite size_app, IH. simpl. lia.
Qed.

Lemma in_bounds_rev idx s : in_bounds idx s -> in_bounds (rev idx) (rev s).
Proof.
  unfold in_bounds. induction 1 as [|i n idx s Hi _ IH]; [constructor|].
  cbn [rev]. apply Forall2_app; [exact IH|].
  constructor; [exact Hi | constructor].
Qed.

Lemma ravel_bound s idx : in_bounds idx s -> ravel s idx < size s.
Proof.
  unfold in_bounds. induction 1 as [|i n idx s Hi _ IH]; simpl.
  - lia.
  - fold (size s). nia.
Qed.

Lemma unravel_bound s k : k < size s -> in_bounds (unravel s k) s.
Proof.
  unfold in_bounds. revert k. induction s as [|n s IH]; intros k Hk.
  - constructor.
  - cbn [unravel]. cbn [size fold_right] in Hk. fold (size s) in Hk.
    assert (Hs : size s <> 0) by (intros E; rewrite E in Hk; lia).
    constructor.
    + apply Nat.Div0.div_lt_upper_bound. lia.
    + apply IH. apply Nat.mod_upper_bound. exact Hs.
Qed.

Lemma ravel_unravel s k : k < size s -> ravel s (unravel s k) = k.
Proof.
  revert k. induction s as [|n s IH]; intros k Hk.
  - simpl in *. lia.
  - cbn [unravel ravel]. cbn [size fold_right] in Hk. fold (size s) in Hk.
    assert (Hs : size s <> 0) by (intros E; rewrite E in Hk; lia).
    rewrite IH by (apply Nat.mod_upper_bound; exact Hs).
    pose proof (Nat.div_mod_eq k (size s)). lia.
Qed.

Lemma unravel_ravel s idx : in_bounds idx s -> unravel s (ravel s idx) = idx.
Proof.
  unfold in_bounds. induction 1 as [|i n idx s Hi Hrest IH];
    [reflexivity|].
  cbn [unravel ravel].
  pose proof (ravel_bound s idx Hrest) as Hr.
  assert (Hs : size s <> 0) by lia.
  rewrite (Nat.add_comm (i * size s)).
  rewrite Nat.div_add by exact Hs.
  rewrite Nat.Div0.mod_add.
  rewrite Nat.div_small, Nat.mod_small by exact Hr.
  rewrite IH. reflexivity.
Qed.

Lemma transpose_index_bound s k :
  k < size s -> transpose_index s k < size s.
Proof.
  intros Hk. unfold transpose_index. apply ravel_bound.
  rewrite <- (rev_involutive s) at 2. apply in_bounds_rev.
  apply unravel_bound. rewrite size_rev. exact Hk.
Qed.

(** Reading the transpose of the transpose reads the array itself. *)
Lemma transpose_index_involutive s k :
  k < size s -> transpose_index s (transpose_index (rev s) k) = k.
Proof.
  intros Hk. unfold transpose_index. rewrite rev_involutive.
  rewrite unravel_ravel.
  - rewrite rev_involutive. apply ravel_unravel. exact Hk.
  - apply in_bounds_rev, unravel_bound. exact Hk.
Qed.

End index_facts.

Section transpose_facts.
Context {T : Type}.
Implicit Types (a : ndarray T) (d : list T) (s : list nat).

Lemma gather_length d ks :
  Forall (fun k => k < length d) ks -> length (gather d ks) = length ks.
Proof.
  induction 1 as [|k ks Hk _ IH]; [reflexivity|].
  rewrite gather_cons.
  destruct (lookup_lt_is_Some_2 d k Hk) as [x Hx]. rewrite Hx.
  simpl. rewrite IH. reflexivity.
Qed.

Lemma transpose_positions_in_range s d :
  length d = size s ->
  Forall (fun k => k < length d) (map (transpose_index s) (seq 0 (size s))).
Proof.
  intros Hlen. apply Forall_forall. intros p Hp.
  apply list_elem_of_In, in_map_iff in Hp as (k & <- & Hk).
  apply in_seq in Hk. rewrite Hlen. apply transpose_index_bound. lia.
Qed.

Lemma transpose_data_length s d :
  length d = size s -> length (np.transpose_data s d) = size s.
Proof.
  intros Hlen. unfold np.transpose_data.
  change (fun k => ravel s (rev (unravel (rev s) k)))
    with (transpose_index s).
  rewrite gather_length by (apply transpose_positions_in_range; exact Hlen).
  rewrite length_map, length_seq. reflexivity.
Qed.

Lemma transpose_data_lookup s d k :
  length d = size s -> k < size s ->
  np.transpose_data s d !! k = d !! transpose_index s k.
Proof.
  intros Hlen Hk. unfold np.transpose_data.
  change (fun k => ravel s (rev (unravel (rev s) k)))
    with (transpose_index s).
  rewrite gather_lookup by (apply transpose_positions_in_range; exact Hlen).
  rewrite list_lookup_fmap, lookup_seq_lt by exact Hk. reflexivity.
Qed.

(** Transposing twice gives the contents back, whatever the rank. *)
Lemma transpose_data_involutive s d :
  length d = size s ->
  np.transpose_data (rev s) (np.transpose_data s d) = d.
Proof.
  intros Hlen.
  pose proof (transpose_data_length s d Hlen) as Hlen1.
  assert (Hlen1' : length (np.transpose_data s d) = size (rev s))
    by (rewrite size_rev; exact Hlen1).
  apply list_eq. intros k.
  destruct (decide (k < size s)) as [Hk|Hk].
  - assert (Hk' : k < size (rev s)) by (rewrite size_rev; exact Hk).
    pose proof (transpose_index_bound (rev s) k Hk') as Hb.
    rewrite size_rev in Hb.
    rewrite (transpose_data_lookup (rev s) _ k Hlen1' Hk').
    rewrite (transpose_data_lookup s d _ Hlen Hb).
    rewrite transpose_index_involutive by exact Hk. reflexivity.
  - rewrite !lookup_ge_None_2; [reflexivity|lia|].
    rewrite transpose_data_length by exact Hlen1'. rewrite size_rev. lia.
Qed.

End transpose_facts.

(** ** More on the constructor *)

Section constructor_facts.
Context {T : Type}.
Implicit Types (A f : ndarray T) (dom : domain_ref) (s : list nat).

Lemma getattr_shape_cases dom :
  (exists s, getattr_shape dom = Ok s
             /\ exists D, dom = Some D /\ dshape D = Some s)
  \/ (getattr_shape dom = Raise (AttributeError "shape")
      /\ (dom = None \/ exists D, dom = Some D /\ dshape D = None)).
Proof.
  destruct dom as [D|]; [|right; split; [reflexivity | left; reflexivity]].
  unfold getattr_shape. destruct (dshape D) as [s|] eqn:HD.
  - left. exists s. split; [reflexivity|]. exists D. split; [reflexivity|].
    exact HD.
  - right. split; [reflexivity|]. right. exists D.
    split; [reflexivity | exact HD].
Qed.

(** Without a [shape] to read, the constructor stops at its first test. *)
Lemma new_without_shape A dom e :
  getattr_shape dom = Raise e -> __new__ A dom = Raise e.
Proof.
  intros He. unfold __new__.
  destruct (atleast_1d_ok A) as (b & Hb & _). rewrite Hb.
  cbn [mbind result_bind bind]. unfold np.view. rewrite derived_Field.
  cbn [mbind result_bind bind]. rewrite He. reflexivity.
Qed.

Lemma shape_atleast_1d_rank s : 1 <= length (shape_atleast_1d s).
Proof. destruct s; simpl; lia. Qed.

Lemma shape_atleast_2d_rank s : 2 <= length (shape_atleast_2d s).
Proof. destruct s as [|n [|n' s]]; simpl; lia. Qed.

Lemma shape_atleast_1d_id s : 1 <= length s -> shape_atleast_1d s = s.
Proof. destruct s; simpl; [lia | reflexivity]. Qed.

Lemma shape_atleast_2d_id s : 2 <= length s -> shape_atleast_2d s = s.
Proof. destruct s as [|n [|n' s]]; simpl; try lia; reflexivity. Qed.

Lemma size_atleast_1d s : size (shape_atleast_1d s) = size s.
Proof. destruct s; reflexivity. Qed.

Lemma size_atleast_2d s : size (shape_atleast_2d s) = size s.
Proof. destruct s as [|n [|n' s]]; simpl; lia. Qed.

End constructor_facts.

(** X1. The constructor raises exactly when the domain passed has no
    [shape] to read (it is [None], or an object without that attribute),
    and what it raises then is the [AttributeError] of that access.  The
    [ValueError] written in its [except] clause is never raised, whatever
    the arguments. *)
Theorem Field_raises_iff_no_shape {T : Type} (A : ndarray T)
  (dom : domain_ref) :
  ((exists e, Field A dom = Raise e)
   <-> (dom = None \/ exists D, dom = Some D /\ dshape D = None))
  /\ (forall e, Field A dom = Raise e -> e = AttributeError "shape")
  /\ Field A dom <> Raise (ValueError shape_mismatch_msg).
Proof.
  unfold Field.
  destruct (getattr_shape_cases dom) as [(s & Hs & D & -> & HD) | [He Hdom]].
  - assert (Hok : exists r, __new__ A (Some D) = Ok r).
    { rewrite (new_cases A (Some D) s Hs).
      repeat case_decide; eexists; reflexivity. }
    destruct Hok as [r Hr]. rewrite Hr.
    split; [split|split].
    + intros [e He]. discriminate He.
    + intros [H | (D' & H & HD')]; [discriminate H|].
      injection H as <-. rewrite HD in HD'. discriminate HD'.
    + intros e He. discriminate He.
    + discriminate.
  - rewrite (new_without_shape A dom _ He).
    split; [split|split].
    + intros _. exact Hdom.
    + intros _. eexists. reflexivity.
    + intros e Heq. injection Heq as <-. reflexivity.
    + discriminate.
Qed.

(** X2. What the constructor returns against a domain of shape [s] is a
    [Field] of rank >= 1 that either has the shape [s] and refers to the
    domain passed, or has another shape and keeps the attribute that view
    casting gave it.  For a plain input array this is the invariant
    [f.shape == f.domain.shape]: the result refers to a domain exactly when
    its shape is that domain's shape, and its [domain] is [None]
    otherwise. *)
Theorem Field_domain_invariant {T : Type} (A f : ndarray T) (D : Domain)
  (s : list nat) :
  dshape D = Some s ->
  Field A (Some D) = Ok f ->
  cls f = Field_cls
  /\ 1 <= length (shape f)
  /\ ((shape f = s /\ domain f = Some (Some D))
      \/ (shape f <> s /\ domain f = Some (getattr_domain_default A)))
  /\ (cls A = ndarray_cls ->
      (domain f = Some (Some D) <-> shape f = s)
      /\ (domain f = Some None <-> shape f <> s)).
Proof.
  intros HD Hf.
  assert (Hs : getattr_shape (Some D) = Ok s).
  { unfold getattr_shape. rewrite HD. reflexivity. }
  unfold Field in Hf. rewrite (new_cases A (Some D) s Hs) in Hf.
  assert (Hplain : cls A = ndarray_cls -> getattr_domain_default A = None).
  { unfold cls, getattr_domain_default, domain.
    destruct (inst A); [reflexivity | discriminate]. }
  pose proof (shape_atleast_1d_rank (shape A)) as H1.
  pose proof (shape_atleast_2d_rank (shape A)) as H2.
  destruct (decide (shape_atleast_1d (shape A) = s)) as [E1|N1];
    [|destruct (decide (rev (shape_atleast_2d (shape A)) = s)) as [E2|N2]];
    injection Hf as <-; cbn [cls inst shape data domain field_of];
    (split; [reflexivity|]); rewrite ?length_rev;
    (split; [lia|]).
  - split; [left; split; [exact E1 | reflexivity]|].
    intros _. split; split; try tauto; try discriminate.
  - split; [left; split; [exact E2 | reflexivity]|].
    intros _. split; split; try tauto; try discriminate.
  - split; [right; split; [exact N2 | reflexivity]|].
    intros Hc. rewrite (Hplain Hc).
    split; split; try tauto; try discriminate.
Qed.

Lemma Field_domain_invariant_witness :
  cls (field_of (Some (grid 7 [3; 1])) [3; 1] [10; 20; 30]) = Field_cls
  /\ 1 <= length [3; 1]
  /\ (([3; 1] = [3; 1]
       /\ Some (Some (grid 7 [3; 1])) = Some (Some (grid 7 [3; 1])))
      \/ ([3; 1] <> [3; 1]
          /\ Some (Some (grid 7 [3; 1])) = Some None))
  /\ (cls (array [3] [10; 20; 30]) = ndarray_cls ->
      (Some (Some (grid 7 [3; 1])) = Some (Some (grid 7 [3; 1]))
       <-> [3; 1] = [3; 1])
      /\ (Some (Some (grid 7 [3; 1])) = Some None <-> [3; 1] <> [3; 1])).
Proof.
  apply (Field_domain_invariant (array [3] [10; 20; 30])
           (field_of (Some (grid 7 [3; 1])) [3; 1] [10; 20; 30])
           (grid 7 [3; 1]) [3; 1]); reflexivity.
Defined.

(** X3. The constructor is idempotent on what it reconciled: a [Field]
    it returned with the shape of the domain, passed again with the same
    domain, comes back unchanged. *)
Theorem Field_idempotent {T : Type} (A f : ndarray T) (D : Domain)
  (s : list nat) :
  dshape D = Some s ->
  Field A (Some D) = Ok f ->
  shape f = s ->
  Field f (Some D) = Ok f.
Proof.
  intros HD Hf Hshape.
  assert (Hs : getattr_shape (Some D) = Ok s).
  { unfold getattr_shape. rewrite HD. reflexivity. }
  unfold Field in *. rewrite (new_cases A (Some D) s Hs) in Hf.
  assert (Hform : f = field_of (Some D) s (data f) /\ 1 <= length s).
  { pose proof (shape_atleast_1d_rank (shape A)) as H1.
    pose proof (shape_atleast_2d_rank (shape A)) as H2.
    destruct (decide (shape_atleast_1d (shape A) = s)) as [E1|N1];
      [|destruct (decide (rev (shape_atleast_2d (shape A)) = s)) as [E2|N2]];
      injection Hf as <-; cbn [shape data field_of] in *.
    - rewrite E1 in *. split; [reflexivity | lia].
    - rewrite E2 in *. rewrite <- E2, length_rev. split; [reflexivity | lia].
    - contradiction. }
  destruct Hform as [Hform Hrank].
  rewrite (new_cases f (Some D) s Hs).
  rewrite Hshape, (shape_atleast_1d_id s Hrank).
  rewrite decide_True by reflexivity. f_equal. symmetry. exact Hform.
Qed.

Lemma Field_idempotent_witness :
  Field (field_of (Some (grid 7 [3; 2])) [3; 2] [1; 4; 2; 5; 3; 6])
        (Some (grid 7 [3; 2]))
  = Ok (field_of (Some (grid 7 [3; 2])) [3; 2] [1; 4; 2; 5; 3; 6]).
Proof.
  apply (Field_idempotent (array [2; 3] [1; 2; 3; 4; 5; 6])
           (field_of (Some (grid 7 [3; 2])) [3; 2] [1; 4; 2; 5; 3; 6])
           (grid 7 [3; 2]) [3; 2]); reflexivity.
Defined.

(** X4. The fallback tries the transpose only, never the promoted array
    itself: a well-formed rank-1 input of length [n <> 1] against a row
    domain of shape [(1, n)] is not reconciled.  The constructor returns
    the column of shape [(n, 1)] without attaching the domain; passing that
    result once more reconciles it, since its transpose is the row. *)
Theorem Field_row_domain_not_attached {T : Type} (A : ndarray T) (D : Domain)
  (n : nat) :
  shape A = [n] ->
  n <> 1 ->
  well_formed A ->
  dshape D = Some [1; n] ->
  exists r,
    Field A (Some D) = Ok r
    /\ shape r = [n; 1]
    /\ data r = data A
    /\ domain r = Some (getattr_domain_default A)
    /\ Field r (Some D) = Ok (field_of (Some D) [1; n] (data A)).
Proof.
  intros HA Hn Hwf HD.
  assert (Hs : getattr_shape (Some D) = Ok [1; n]).
  { unfold getattr_shape. rewrite HD. reflexivity. }
  assert (Hlen : length (data A) = n).
  { unfold well_formed in Hwf. rewrite HA in Hwf. simpl in Hwf. lia. }
  assert (Hrow : np.transpose_data [1; n] (data A) = data A)
    by (apply transpose_data_row; exact Hlen).
  exists (field_of (getattr_domain_default A) [n; 1] (data A)).
  split; [|split; [reflexivity|split; [reflexivity|split; [reflexivity|]]]].
  - unfold Field. rewrite (new_cases A (Some D) [1; n] Hs), HA.
    cbn [shape_atleast_1d shape_atleast_2d rev app].
    rewrite decide_False by discriminate.
    rewrite decide_False by (intros E; injection E as E; lia).
    rewrite Hrow. reflexivity.
  - unfold Field.
    rewrite (new_cases (field_of (getattr_domain_default A) [n; 1] (data A))
               (Some D) [1; n] Hs).
    cbn [shape data field_of shape_atleast_1d shape_atleast_2d rev app].
    rewrite decide_False by (intros E; injection E as E; lia).
    rewrite decide_True by reflexivity.
    rewrite <- Hrow at 1.
    change [n; 1] with (rev [1; n]).
    rewrite transpose_data_involutive by (simpl; lia).
    reflexivity.
Qed.

Lemma Field_row_domain_not_attached_witness :
  exists r,
    Field (array [3] [10; 20; 30]) (Some (grid 7 [1; 3])) = Ok r
    /\ shape r = [3; 1]
    /\ data r = [10; 20; 30]
    /\ domain r = Some None
    /\ Field r (Some (grid 7 [1; 3]))
       = Ok (field_of (Some (grid 7 [1; 3])) [1; 3] [10; 20; 30]).
Proof.
  apply (Field_row_domain_not_attached (array [3] [10; 20; 30])
           (grid 7 [1; 3]) 3);
    [reflexivity | discriminate | reflexivity | reflexivity].
Defined.

(** X5. The constructor keeps a well-formed array well formed and never
    drops or adds an element, on the fast path as through the
    transpose. *)
Theorem Field_preserves_well_formed {T : Type} (A f : ndarray T)
  (dom : domain_ref) :
  well_formed A ->
  Field A dom = Ok f ->
  well_formed f /\ length (data f) = length (data A).
Proof.
  intros Hwf Hf. unfold Field in Hf. unfold well_formed in *.
  destruct (getattr_shape_cases dom) as [(s & Hs & _) | [He _]];
    [|rewrite (new_without_shape A dom _ He) in Hf; discriminate Hf].
  rewrite (new_cases A dom s Hs) in Hf.
  assert (Ht : length (np.transpose_data (shape_atleast_2d (shape A)) (data A))
               = size (shape A)).
  { rewrite transpose_data_length; rewrite size_atleast_2d;
      [reflexivity | exact Hwf]. }
  destruct (decide (shape_atleast_1d (shape A) = s));
    [|destruct (decide (rev (shape_atleast_2d (shape A)) = s))];
    injection Hf as <-; cbn [shape data field_of];
    rewrite ?size_rev, ?size_atleast_1d, ?size_atleast_2d, ?Ht;
    split; congruence.
Qed.

Lemma Field_preserves_well_formed_witness :
  well_formed (field_of (Some (grid 7 [3; 2])) [3; 2] [1; 4; 2; 5; 3; 6])
  /\ length [1; 4; 2; 5; 3; 6] = length [1; 2; 3; 4; 5; 6].
Proof.
  apply (Field_preserves_well_formed (array [2; 3] [1; 2; 3; 4; 5; 6])
           (field_of (Some (grid 7 [3; 2])) [3; 2] [1; 4; 2; 5; 3; 6])
           (Some (grid 7 [3; 2]))); reflexivity.
Defined.

(** X6. The transpose fallback loses nothing, whatever the rank: when a
    well-formed array of rank >= 2 is reconciled with a domain of the
    reversed shape, reconciling the result with a domain of the original
    shape gives the original shape and contents back. *)
Theorem Field_fallback_round_trip {T : Type} (A : ndarray T) (D D' : Domain) :
  well_formed A ->
  2 <= length (shape A) ->
  shape A <> rev (shape A) ->
  dshape D = Some (rev (shape A)) ->
  dshape D' = Some (shape A) ->
  exists f,
    Field A (Some D) = Ok f
    /\ shape f = rev (shape A)
    /\ domain f = Some (Some D)
    /\ Field f (Some D') = Ok (field_of (Some D') (shape A) (data A)).
Proof.
  intros Hwf Hrank Hne HD HD'.
  assert (Hs : getattr_shape (Some D) = Ok (rev (shape A))).
  { unfold getattr_shape. rewrite HD. reflexivity. }
  assert (Hs' : getattr_shape (Some D') = Ok (shape A)).
  { unfold getattr_shape. rewrite HD'. reflexivity. }
  assert (Hrank' : 2 <= length (rev (shape A))) by (rewrite length_rev; lia).
  exists (field_of (Some D) (rev (shape A))
            (np.transpose_data (shape A) (data A))).
  split; [|split; [reflexivity|split; [reflexivity|]]].
  - unfold Field. rewrite (new_cases A (Some D) _ Hs).
    rewrite shape_atleast_1d_id, shape_atleast_2d_id by lia.
    rewrite decide_False by exact Hne.
    rewrite decide_True by reflexivity. reflexivity.
  - unfold Field. rewrite (new_cases _ (Some D') _ Hs').
    cbn [shape data field_of].
    rewrite shape_atleast_1d_id, shape_atleast_2d_id by lia.
    rewrite decide_False by (intros E; apply Hne; symmetry; exact E).
    rewrite rev_involutive. rewrite decide_True by reflexivity.
    rewrite transpose_data_involutive by exact Hwf. reflexivity.
Qed.

Lemma Field_fallback_round_trip_witness :
  exists f,
    Field (array [2; 1; 3] [1; 2; 3; 4; 5; 6]) (Some (grid 7 [3; 1; 2]))
    = Ok f
    /\ shape f = [3; 1; 2]
    /\ domain f = Some (Some (grid 7 [3; 1; 2]))
    /\ Field f (Some (grid 8 [2; 1; 3]))
       = Ok (field_of (Some (grid 8 [2; 1; 3])) [2; 1; 3]
               [1; 2; 3; 4; 5; 6]).
Proof.
  apply (Field_fallback_round_trip (array [2; 1; 3] [1; 2; 3; 4; 5; 6])
           (grid 7 [3; 1; 2]) (grid 8 [2; 1; 3]));
    [reflexivity | simpl; lia | discriminate | reflexivity | reflexivity].
Defined.

(** ** Chains of derived arrays *)

Lemma derived_of_Field {T : Type} (a : ndarray T) s d :
  cls a = Field_cls ->
  np.derived (cls a) a s d = Ok (field_of (getattr_domain_default a) s d).
Proof. intros Hc. rewrite Hc. reflexivity. Qed.

Lemma field_of_default {T : Type} (v : domain_ref) s (d : list T) :
  cls (field_of v s d) = Field_cls
  /\ getattr_domain_default (field_of v s d) = v.
Proof. split; reflexivity. Qed.

(** One step of derivation from a [Field] gives a [Field] with the same
    domain. *)
Lemma derives_step {T : Type} (a r : ndarray T) :
  cls a = Field_cls ->
  derives a r ->
  cls r = Field_cls /\ getattr_domain_default r = getattr_domain_default a.
Proof.
  intros Hc Hd.
  destruct Hd as [a i j r H | a i r H | a zero r H | a r H | a r H | a r H
                 | a r H | a r H | a g r H | a op b r H | a op b r Hb H].
  - unfold np.getitem_slice in H. destruct (shape a); [discriminate H|].
    rewrite (derived_of_Field a _ _ Hc) in H. injection H as <-.
    apply field_of_default.
  - unfold np.getitem_int in H. destruct (shape a) as [|n rest];
      [discriminate H|].
    case_decide; [|discriminate H].
    destruct rest as [|n' rest].
    + destruct (data a !! _); discriminate H.
    + rewrite (derived_of_Field a _ _ Hc) in H.
      cbn [mbind result_bind bind] in H. injection H as <-.
      apply field_of_default.
  - unfold np.zeros_like in H. rewrite (derived_of_Field a _ _ Hc) in H.
    injection H as <-. apply field_of_default.
  - unfold np.view in H. rewrite derived_Field in H.
    injection H as <-. apply field_of_default.
  - unfold np.atleast_1d, np.reshape in H. destruct (shape a).
    + rewrite (derived_of_Field a _ _ Hc) in H. injection H as <-.
      apply field_of_default.
    + injection H as <-. split; [exact Hc | reflexivity].
  - unfold np.atleast_2d, np.reshape in H.
    destruct (shape a) as [|n [|n' rest]].
    + rewrite (derived_of_Field a _ _ Hc) in H. injection H as <-.
      apply field_of_default.
    + rewrite (derived_of_Field a _ _ Hc) in H. injection H as <-.
      apply field_of_default.
    + injection H as <-. split; [exact Hc | reflexivity].
  - unfold np.transpose in H. rewrite (derived_of_Field a _ _ Hc) in H.
    injection H as <-. apply field_of_default.
  - unfold np.squeeze in H. rewrite (derived_of_Field a _ _ Hc) in H.
    injection H as <-. apply field_of_default.
  - unfold np.ufunc1 in H. rewrite (derived_of_Field a _ _ Hc) in H.
    injection H as <-. apply field_of_default.
  - unfold np.ufunc2, np.wrapping_operand in H. rewrite Hc in H.
    destruct (broadcast_shapes _ _); [|discriminate H].
    rewrite derived_Field in H. injection H as <-. apply field_of_default.
  - unfold np.ufunc2, np.wrapping_operand in H. rewrite Hb, Hc in H.
    destruct (broadcast_shapes _ _); [|discriminate H].
    rewrite derived_Field in H. injection H as <-. apply field_of_default.
Qed.

(** X7. The domain survives any chain of derivations: whatever sequence
    of slices, sub-arrays, views, promotions, transposes, squeezes,
    template copies and ufuncs leads from a [Field] [f] to an array [r],
    [r] is a [Field] and [getattr(r, 'domain', None)] is the reference
    that [f] holds. *)
Theorem derived_chain_keeps_domain {T : Type} (f r : ndarray T) :
  cls f = Field_cls ->
  rtc derives f r ->
  cls r = Field_cls /\ getattr_domain_default r = getattr_domain_default f.
Proof.
  intros Hc Hchain. induction Hchain as [f | f m r Hstep _ IH].
  - split; [exact Hc | reflexivity].
  - destruct (derives_step f m Hc Hstep) as [Hm Hdom].
    destruct (IH Hm) as [Hr Hdom']. split; [exact Hr|].
    rewrite Hdom'. exact Hdom.
Qed.

Lemma derived_chain_keeps_domain_witness :
  cls (field_of (Some (grid 1 [2; 3])) [1; 2] [4; 8]) = Field_cls
  /\ getattr_domain_default
       (field_of (Some (grid 1 [2; 3])) [1; 2] [4; 8])
     = getattr_domain_default sample_field.
Proof.
  apply (derived_chain_keeps_domain sample_field
           (field_of (Some (grid 1 [2; 3])) [1; 2] [4; 8]));
    [reflexivity|].
  apply (rtc_l _ _ (field_of (Some (grid 1 [2; 3])) [3; 2]
                       [1; 4; 2; 5; 3; 6])).
  - apply derives_transpose. reflexivity.
  - apply (rtc_l _ _ (field_of (Some (grid 1 [2; 3])) [1; 2] [3; 6])).
    + apply (derives_slice _ (Some 2%Z) None). reflexivity.
    + apply rtc_once.
      apply (derives_ufunc2_right _ Nat.add (array [2] [1; 2])).
      * reflexivity.
      * reflexivity.
Defined.

(** ** More on the global mean *)

Section mean_facts.
Context {lib : Float64Lib}.

Lemma broadcast_shapes_last_axis sq m n :
  m <> n -> m <> 1 -> n <> 1 ->
  broadcast_shapes (sq ++ [m]) [n] = None.
Proof.
  intros Hmn Hm Hn. unfold broadcast_shapes.
  rewrite rev_unit. cbn [rev app broadcast_rev].
  assert (Hrest : exists rest, broadcast_rev (rev sq) [] = Some rest).
  { destruct (rev sq); eexists; reflexivity. }
  destruct Hrest as [rest ->].
  rewrite !decide_False by assumption. reflexivity.
Qed.

(** A field whose last axis, once squeezed, is not the latitude axis does
    not broadcast against the weights. *)
Lemma global_mean_last_axis (field : ndarray float) lat sq m :
  lat_points field = Ok lat ->
  List.filter (fun k => negb (k =? 1)) (shape field) = sq ++ [m] ->
  m <> length lat ->
  length lat <> 1 ->
  global_mean field = Raise (ValueError np.broadcast_msg).
Proof.
  intros Hlat Hsq Hm Hn.
  assert (Hm1 : m <> 1).
  { assert (Hin : In m (List.filter (fun k => negb (k =? 1))
                          (shape field)))
      by (rewrite Hsq; apply in_or_app; right; left; reflexivity).
    apply filter_In in Hin as [_ Hneq]. intros ->. discriminate Hneq. }
  rewrite (global_mean_found field lat Hlat), Hsq.
  rewrite broadcast_shapes_last_axis by assumption. reflexivity.
Qed.


Lemma lat_points_of_domain (D : Domain) (m : gmap string Axis) (ax : Axis)
  (lat : list float) s (d : list float) :
  axes D = Some (AxesDict m) ->
  m !! "lat" = Some ax ->
  points ax = Some lat ->
  lat_points (field_of (Some D) s d) = Ok lat.
Proof.
  intros Haxes Hm Hp. unfold lat_points.
  cbn [getattr_domain domain inst field_of mbind result_bind bind
       getattr_axes].
  rewrite Haxes. cbn [mbind result_bind bind getitem_axes].
  rewrite Hm. cbn [mbind result_bind bind]. unfold getattr_points.
  rewrite Hp. reflexivity.
Qed.

End mean_facts.

(** X9. When the last axis left by the squeeze is not as long as the
    latitude vector (and that vector has more than one point),
    [global_mean] raises numpy's broadcast [ValueError]: the latitudes
    were found, so this is not the no-latitude error, and no shape is
    checked before the product. *)
Theorem global_mean_broadcast_error {lib : Float64Lib}
  (field : ndarray float) (lat : list float) (sq : list nat) (m : nat) :
  lat_points field = Ok lat ->
  List.filter (fun k => negb (k =? 1)) (shape field) = sq ++ [m] ->
  m <> length lat ->
  length lat <> 1 ->
  global_mean field = Raise (ValueError np.broadcast_msg)
  /\ global_mean field <> Raise (ValueError no_latitude_msg).
Proof.
  intros Hlat Hsq Hm Hn.
  rewrite (global_mean_last_axis field lat sq m Hlat Hsq Hm Hn).
  split; [reflexivity | discriminate].
Qed.

Lemma global_mean_broadcast_error_witness :
  global_mean (lib := sample_lib)
    (field_of (Some (lat_by_2_grid 1)) [3; 2] [1; 2; 3; 4; 5; 6]%float)
  = Raise (ValueError np.broadcast_msg)
  /\ global_mean (lib := sample_lib)
       (field_of (Some (lat_by_2_grid 1)) [3; 2] [1; 2; 3; 4; 5; 6]%float)
     <> Raise (ValueError no_latitude_msg).
Proof.
  apply (global_mean_broadcast_error (lib := sample_lib)
           (field_of (Some (lat_by_2_grid 1)) [3; 2]
              [1; 2; 3; 4; 5; 6]%float)
           [-45; 0; 45]%float [3] 2);
    [reflexivity | reflexivity | discriminate | discriminate].
Defined.



(** X13. Construction followed by the mean: a well-formed vector [A] with
    one value per latitude, made a [Field] over a domain whose shape is
    [(n,)] or the column [(n, 1)] and whose ['lat'] axis has the points
    [lat], refers to that domain, and its global mean is the [Field] of
    rank 0 over the same domain that holds the float64 quotient
    [sum_i A_i cos(lat_i) / sum_i cos(lat_i)]; the column orientation
    changes nothing. *)
Theorem Field_then_global_mean {lib : Float64Lib} (A : ndarray float)
  (D : Domain) (m : gmap string Axis) (ax : Axis) (lat : list float) :
  shape A = [length lat] ->
  well_formed A ->
  dshape D = Some [length lat] \/ dshape D = Some [length lat; 1] ->
  axes D = Some (AxesDict m) ->
  m !! "lat" = Some ax ->
  points ax = Some lat ->
  exists f,
    Field A (Some D) = Ok f
    /\ domain f = Some (Some D)
    /\ global_mean f
       = Ok (field_of (Some D) []
               [(np_add_reduce
                   (zip_with PrimFloat.mul (data A)
                      (map np_cos (map np_deg2rad lat)))
                 / np_add_reduce (map np_cos (map np_deg2rad lat)))%float]).
Proof.
  intros HA Hwf HD Haxes Hm Hp.
  assert (Hlen : length (data A) = length lat).
  { unfold well_formed in Hwf. rewrite HA in Hwf. simpl in Hwf. lia. }
  destruct HD as [HD | HD].
  - exists (field_of (Some D) [length lat] (data A)).
    split; [|split; [reflexivity|]].
    + unfold Field. rewrite (new_cases A (Some D) [length lat]);
        [|unfold getattr_shape; rewrite HD; reflexivity].
      rewrite HA. cbn [shape_atleast_1d].
      rewrite decide_True by reflexivity. reflexivity.
    + apply (global_mean_along_latitude
               (field_of (Some D) [length lat] (data A)) lat).
      * exact (lat_points_of_domain D m ax lat _ _ Haxes Hm Hp).
      * exact Hlen.
      * apply along_latitude_vector.
  - exists (field_of (Some D) [length lat; 1] (data A)).
    split; [|split; [reflexivity|]].
    + unfold Field. rewrite (new_cases A (Some D) [length lat; 1]);
        [|unfold getattr_shape; rewrite HD; reflexivity].
      rewrite HA. cbn [shape_atleast_1d shape_atleast_2d rev app].
      rewrite decide_False by discriminate.
      rewrite decide_True by reflexivity.
      rewrite transpose_data_row by exact Hlen. reflexivity.
    + apply (global_mean_along_latitude
               (field_of (Some D) [length lat; 1] (data A)) lat).
      * exact (lat_points_of_domain D m ax lat _ _ Haxes Hm Hp).
      * exact Hlen.
      * unfold along_latitude. cbn [shape field_of List.filter Nat.eqb negb].
        destruct (length lat =? 1) eqn:E; cbn [negb].
        -- right. apply Nat.eqb_eq in E. split; [reflexivity | exact E].
        -- left. reflexivity.
Qed.

Lemma Field_then_global_mean_witness :
  exists f,
    Field (array [3] [1; 2; 3]%float)
          (Some (mkDomain 1 (Some [3; 1])
                   (Some (AxesDict
                            {[ "lat" :=
                                 mkAxis (Some [-45; 0; 45]%float) ]}))))
    = Ok f
    /\ domain f
       = Some (Some (mkDomain 1 (Some [3; 1])
                       (Some (AxesDict
                                {[ "lat" :=
                                     mkAxis (Some [-45; 0; 45]%float) ]}))))
    /\ global_mean (lib := sample_lib) f
       = Ok (field_of
               (Some (mkDomain 1 (Some [3; 1])
                        (Some (AxesDict
                                 {[ "lat" :=
                                      mkAxis (Some [-45; 0; 45]%float) ]}))))
               []
               [(sum_left_to_right
                   (zip_with PrimFloat.mul [1; 2; 3]%float
                      (map cos_table
                         (map deg2rad_product [-45; 0; 45]%float)))
                 / sum_left_to_right
                     (map cos_table
                        (map deg2rad_product [-45; 0; 45]%float)))%float]).
Proof.
  apply (Field_then_global_mean (lib := sample_lib)
           (array [3] [1; 2; 3]%float)
           (mkDomain 1 (Some [3; 1])
              (Some (AxesDict
                       {[ "lat" := mkAxis (Some [-45; 0; 45]%float) ]})))
           {[ "lat" := mkAxis (Some [-45; 0; 45]%float) ]}
           (mkAxis (Some [-45; 0; 45]%float)) [-45; 0; 45]%float);
    try reflexivity.
  right. reflexivity.
Defined.
